(** * Language-classification training plugin: model and properties

    A shallow embedding of [modelTypes/language_classification.py]: the
    character vocabulary and fixed-width encoding of [CustomDataset], the
    helpers [GetMaxLength] and [SplitDataset], and the controller-facing
    methods [__init__], [Initialize], [Train] and [Save] of [Model].

    Conventions.
    - Python [int] is [Z]; list lengths and indices produced by [range] are
      [nat]; [str] is [string], iterated character by character.
    - Python [float] is idealised as an exact rational [Q]: rounding of
      binary floating point is not represented.
    - A statement that can raise returns a [res]; a method that mutates
      [self] or calls into the surrounding frameworks is a state transformer
      [M] which keeps the mutations made before an exception was raised.
    - Everything that is not defined in the file itself (the Python runtime,
      [modelTypes.modules], torch) is a field of the [Framework] class. *)

From Stdlib Require Import ZArith QArith Qround Qabs Lqa String Ascii.
From stdpp Require Import gmap strings list pretty.

Local Open Scope Z_scope.

(** ** Python exceptions and results *)

Inductive exn_class :=
  | AttributeError
  | TypeError
  | UnboundLocalError
  | ValueError
  | IndexError
  | ZeroDivisionError
  | StopIteration
  | OtherException (name : string)
  | KeyboardInterrupt
  | SystemExit.

Record exn := Exn { exn_class_of : exn_class; exn_msg : string }.

(** [isinstance(e, Exception)]: everything but the two classes that derive
    from [BaseException] directly. *)
Definition derives_Exception (c : exn_class) : bool :=
  match c with
  | KeyboardInterrupt | SystemExit => false
  | _ => true
  end.

Inductive res (A : Type) :=
  | Ret (a : A)
  | Raise (e : exn).
Arguments Ret {A} a.
Arguments Raise {A} e.

Global Instance res_ret : MRet res := λ A a, Ret a.

Global Instance res_bind : MBind res := λ A B k r,
  match r with
  | Ret a => k a
  | Raise e => Raise e
  end.

(** ** Plain Python values: [None], [bool], [int], [float], [str] *)

Inductive pyval :=
  | PNone
  | PBool (b : bool)
  | PInt (z : Z)
  | PFloat (q : Q)
  | PStr (s : string).

(** Truth value used by [if v:] and by [a if v else b]. *)
Definition truthy (v : pyval) : bool :=
  match v with
  | PNone => false
  | PBool b => b
  | PInt z => negb (z =? 0)
  | PFloat q => negb (Qeq_bool q 0)
  | PStr s => negb (String.eqb s "")
  end.

(** [v == s] for a string literal [s]. *)
Definition py_eq_str (v : pyval) (s : string) : bool :=
  match v with
  | PStr t => String.eqb t s
  | _ => false
  end.

(** ** List and number primitives *)

Definition chars (s : string) : list ascii := list_ascii_of_string s.

Definition py_len {A} (l : list A) : Z := Z.of_nat (length l).

(** [[x] * k]: the empty list when [k] is zero or negative. *)
Definition py_list_mul {A} (x : A) (k : Z) : list A :=
  replicate (Z.to_nat k) x.

(** [l[:k]]: a negative [k] counts from the end, clamped at the start. *)
Definition py_slice_to {A} (l : list A) (k : Z) : list A :=
  if 0 <=? k then take (Z.to_nat k) l
  else take (Z.to_nat (py_len l + k)) l.

(** [l[i]]: a negative [i] counts from the end; out of range raises. *)
Definition py_index {A} (l : list A) (i : Z) : res A :=
  let j := if 0 <=? i then i else py_len l + i in
  if 0 <=? j then
    match l !! Z.to_nat j with
    | Some x => Ret x
    | None => Raise (Exn IndexError "list index out of range")
    end
  else Raise (Exn IndexError "list index out of range").

(** [{k: v for k, v in kvs}]: a later pair overrides an earlier one. *)
Definition dict_comp {K V} `{Countable K} (kvs : list (K * V)) : gmap K V :=
  foldl (λ d kv, <[kv.1 := kv.2]> d) ∅ kvs.

(** [int(q)] on a float: truncation towards zero. *)
Definition py_int_of_float (q : Q) : Z :=
  if Qle_bool 0 q then Qfloor q else Qceiling q.

(** Nearest integer, a tie going to the even neighbour. *)
Definition round_half_even (q : Q) : Z :=
  let f := Qfloor q in
  match Qcompare (q - inject_Z f) (1 # 2) with
  | Lt => f
  | Gt => f + 1
  | Eq => if Z.even f then f else f + 1
  end.

(** [round(q, 2)]. *)
Definition py_round2 (q : Q) : Q :=
  inject_Z (round_half_even (q * inject_Z 100)) / inject_Z 100.

(** [a / b] on numbers. *)
Definition py_truediv (a b : Q) : res Q :=
  if Qeq_bool b 0 then Raise (Exn ZeroDivisionError "division by zero")
  else Ret (a / b)%Q.

(** ** Records, objects, batches *)

(** One training example: [(message, channel, output)]. *)
Definition record : Type := string * string * Z.

(** An object together with its identity: two constructor calls never
    yield the same [oid]. *)
Record obj (A : Type) := Obj { oid : nat; val : A }.
Arguments Obj {A} oid val.
Arguments oid {A} o.
Arguments val {A} o.

(** What a data loader yields: the collated samples, each an encoded input
    row and its label; [data[0]] is the rows, [data[1]] the labels. *)
Definition Batch : Type := list (list Z * Z).

(** The shape and flags of one entry of [model.parameters()]. *)
Record param_info := ParamInfo {
  param_size : list Z;
  param_requires_grad : bool;
  param_element_size : Z
}.

(** ** The dataset object

    [CustomDataset] keeps the records it was given, the fixed width and the
    character vocabulary built from those records. *)

Record CustomDataset := MkCustomDataset {
  data : list record;
  max_length : Z;
  vocab : gmap ascii Z
}.

(** ** The surrounding frameworks

    [eff W A] is a call that may read and change the outside world [W]
    (files, the clock, the random generators, tensors held by torch) and
    either returns or raises. *)

Definition eff (W A : Type) : Type := W → res A * W.

Class Framework := {
  World : Type;
  (** Python runtime and standard library *)
  (** the order in which a [for] loop visits the elements of a set *)
  set_iter : gset ascii → list ascii;
  (** the list drawn by [random.sample(range(n), k)] when [0 <= k <= n] *)
  random_sample_range : nat → nat → World → list nat * World;
  (** [traceback.format_exc()] inside the handler of the exception *)
  format_exc : exn → string;
  str_strip : string → string;
  int_of_str : string → res Z;
  float_repr : Q → string;
  os_name : string;
  os_listdir : pyval → eff World (list string);
  open_readlines : pyval → string → eff World (list string);
  os_path_exists : pyval → eff World bool;
  os_makedirs : pyval → eff World unit;
  os_path_join : pyval → string → res string;
  datetime_now_strftime : eff World string;
  json_dumps_encode : list (string * pyval) → res string;
  print : string → eff World unit;
  (** modelTypes.modules *)
  Hyperparameter : Type;
  Fetcher : Type;
  HyperparameterFetcher : list Hyperparameter → eff World Fetcher;
  Fetcher_GetHyp : Fetcher → string → eff World pyval;
  (** torch and numpy *)
  Net : Type;
  DataLoader : Type;
  Scaler : Type;
  Criterion : Type;
  Optimizer : Type;
  Scheduler : Type;
  torch_version : string;
  numpy_version : string;
  NeuralNetwork :
    pyval → pyval → pyval → pyval → pyval → pyval → eff World Net;
  net_parameters : Net → eff World (list param_info);
  net_train : Net → eff World unit;
  net_eval : Net → eff World unit;
  net_str : Net → eff World string;
  optimizer_str : Optimizer → eff World string;
  criterion_str : Criterion → eff World string;
  (** [model(inputs)] in evaluation mode, one row of class scores per input
      row; it reads the weights held in the world and changes nothing. *)
  forward_row : World → Net → string → list Z → res (list Q);
  DataLoader_new :
    obj CustomDataset → pyval → pyval → pyval → pyval → pyval →
    eff World DataLoader;
  DataLoader_len : DataLoader → eff World Z;
  (** the batches of one pass over the loader, taken before the body of the
      loop runs on the first of them *)
  DataLoader_iter : DataLoader → eff World (list Batch);
  GradScaler : eff World Scaler;
  CrossEntropyLoss : eff World Criterion;
  Adam : Net → pyval → eff World Optimizer;
  OneCycleLR : Optimizer → pyval → Z → pyval → eff World Scheduler;
  (** one iteration of the training loop after the attribute reads: move
      the batch to the device, zero the gradients, forward under autocast,
      loss, scaled backward, optimizer and scaler and scheduler steps;
      returns [loss.item()] *)
  train_step :
    string → Optimizer → Net → Criterion → Scaler → Scheduler → Batch →
    eff World Q;
  (** one iteration of the validation loop; returns [loss.item()] *)
  eval_step : string → Net → Criterion → Batch → eff World Q;
  cuda_empty_cache : eff World unit;
  jit_script_save : Net → string → string → eff World unit
}.

(** ** Instance attributes of [Model]

    The attributes that the methods of the class assign. *)

Inductive attr :=
  | hyperparameters
  | required_training_data
  | additional_training_data
  | model_data
  | device
  | hyp_fetcher
  | error
  | exception
  | data_length
  | model
  | train_dataset
  | val_dataset
  | train_size
  | val_size
  | train_dataloader
  | val_dataloader
  | scaler
  | criterion
  | optimizer
  | scheduler.

Global Instance attr_eq_dec : EqDecision attr.
Proof. solve_decision. Defined.

Definition attr_name (a : attr) : string :=
  match a with
  | hyperparameters => "hyperparameters"
  | required_training_data => "required_training_data"
  | additional_training_data => "additional_training_data"
  | model_data => "model_data"
  | device => "device"
  | hyp_fetcher => "hyp_fetcher"
  | error => "error"
  | exception => "exception"
  | data_length => "data_length"
  | model => "model"
  | train_dataset => "train_dataset"
  | val_dataset => "val_dataset"
  | train_size => "train_size"
  | val_size => "val_size"
  | train_dataloader => "train_dataloader"
  | val_dataloader => "val_dataloader"
  | scaler => "scaler"
  | criterion => "criterion"
  | optimizer => "optimizer"
  | scheduler => "scheduler"
  end.

Section Program.
Context {F : Framework}.

(** ** CustomDataset *)

(** [build_vocab]: the set of characters of every message and channel,
    numbered from 1 in the order in which the set is iterated. *)
Definition build_vocab (data : list record) : gmap ascii Z :=
  let vocab : gset ascii :=
    foldl (λ (vocab : gset ascii) (r : record),
             let '(message, channel, _) := r in
             (vocab ∪ list_to_set (chars message))
               ∪ list_to_set (chars channel))
          ∅ data in
  dict_comp (imap (λ idx char, (char, Z.of_nat idx + 1)) (set_iter vocab)).

Definition CustomDataset__init__ (data : list record) (max_length : Z)
  : CustomDataset :=
  MkCustomDataset data max_length (build_vocab data).

Definition encode (self : CustomDataset) (text : string) : list Z :=
  let encoded := (λ char, default 0 (vocab self !! char)) <$> chars text in
  encoded ++ py_list_mul 0 (max_length self - py_len encoded).

Definition __len__ (self : CustomDataset) : Z := py_len (data self).

(** The two tensors are represented by their contents. *)
Definition __getitem__ (self : CustomDataset) (idx : Z) : res (list Z * Z) :=
  '(message, channel, label) ← py_index (data self) idx;
  let message_encoded := py_slice_to (encode self message) (max_length self) in
  let channel_encoded := py_slice_to (encode self channel) (max_length self) in
  Ret (message_encoded ++ channel_encoded, label).

(** ** GetMaxLength *)

Definition GetMaxLength (data : list record) : Z :=
  foldl (λ max_length (r : record),
           let '(message, _, _) := r in
           if max_length <? py_len (chars message)
           then py_len (chars message) else max_length)
        0 data.

(** ** Values held by attributes and passed between methods

    [RequiredTrainingData], [AdditionalTrainingData] and [ModelData] are
    classes of [modelTypes.modules]; an instance is represented by the
    arguments it was constructed with, a list of the last two by [VInfo]. *)

#[warnings="-register-all"]
Inductive value :=
  | VPy (p : pyval)
  | VHyperparameters (l : list Hyperparameter)
  | VFetcher (f : Fetcher)
  | VDevice (kind : string)
  | VNet (n : Net)
  | VDataset (d : obj CustomDataset)
  | VDataLoader (l : obj DataLoader)
  | VScaler (s : Scaler)
  | VCriterion (c : Criterion)
  | VOptimizer (o : Optimizer)
  | VScheduler (s : Scheduler)
  | VRequiredTrainingData (training_loss validation_loss : Q)
  | VInfo (rows : list (string * string * value)).

Definition py_of (v : value) : option pyval :=
  match v with VPy p => Some p | _ => None end.
Definition fetcher_of (v : value) : option Fetcher :=
  match v with VFetcher f => Some f | _ => None end.
Definition device_of (v : value) : option string :=
  match v with VDevice d => Some d | _ => None end.
Definition net_of (v : value) : option Net :=
  match v with VNet n => Some n | _ => None end.
Definition dataset_of (v : value) : option (obj CustomDataset) :=
  match v with VDataset d => Some d | _ => None end.
Definition loader_of (v : value) : option (obj DataLoader) :=
  match v with VDataLoader l => Some l | _ => None end.
Definition scaler_of (v : value) : option Scaler :=
  match v with VScaler x => Some x | _ => None end.
Definition criterion_of (v : value) : option Criterion :=
  match v with VCriterion x => Some x | _ => None end.
Definition optimizer_of (v : value) : option Optimizer :=
  match v with VOptimizer x => Some x | _ => None end.
Definition scheduler_of (v : value) : option Scheduler :=
  match v with VScheduler x => Some x | _ => None end.
Definition losses_of (v : value) : option (Q * Q) :=
  match v with VRequiredTrainingData t u => Some (t, u) | _ => None end.

(** [type(v).__name__] *)
Definition type_name (v : value) : string :=
  match v with
  | VPy PNone => "NoneType"
  | VPy (PBool _) => "bool"
  | VPy (PInt _) => "int"
  | VPy (PFloat _) => "float"
  | VPy (PStr _) => "str"
  | VHyperparameters _ => "list"
  | VFetcher _ => "HyperparameterFetcher"
  | VDevice _ => "device"
  | VNet _ => "NeuralNetwork"
  | VDataset _ => "CustomDataset"
  | VDataLoader _ => "DataLoader"
  | VScaler _ => "GradScaler"
  | VCriterion _ => "CrossEntropyLoss"
  | VOptimizer _ => "Adam"
  | VScheduler _ => "OneCycleLR"
  | VRequiredTrainingData _ _ => "RequiredTrainingData"
  | VInfo _ => "list"
  end.

(** An argument of a call: the model instance itself, a value, or the list
    of loaded records. *)
Inductive pyarg :=
  | ArgModel
  | ArgValue (v : value)
  | ArgRecords (d : list record).

(** Class-level attributes inherited from [ModelTemplate], whose definition
    is in [modelTypes.modules]: what an attribute read finds when the
    instance itself has no such attribute. *)
Class Template := class_attr : attr → option value.
Context {T : Template}.

(** ** State and the method monad *)

Record State := MkState {
  self : attr → option value;
  world : World;
  next_oid : nat
}.

Definition M (A : Type) : Type := State → res A * State.

Global Instance M_ret : MRet M := λ A a st, (Ret a, st).

Global Instance M_bind : MBind M := λ A B k m st,
  match m st with
  | (Ret a, st') => k a st'
  | (Raise e, st') => (Raise e, st')
  end.

Definition raise {A} (c : exn_class) (msg : string) : M A :=
  λ st, (Raise (Exn c msg), st).

Definition lift_res {A} (r : res A) : M A := λ st, (r, st).

Definition call {A} (f : eff World A) : M A := λ st,
  let '(r, w) := f (world st) in (r, MkState (self st) w (next_oid st)).

Definition get_world : M World := λ st, (Ret (world st), st).

Definition fresh_oid : M nat := λ st,
  (Ret (next_oid st), MkState (self st) (world st) (S (next_oid st))).

(** [self.a] *)
Definition getattr (a : attr) : M value := λ st,
  match self st a with
  | Some v => (Ret v, st)
  | None =>
      match class_attr a with
      | Some v => (Ret v, st)
      | None =>
          (Raise (Exn AttributeError
                    ("'Model' object has no attribute '" +:+ attr_name a +:+ "'")),
           st)
      end
  end.

(** [self.a = v] *)
Definition setattr (a : attr) (v : value) : M unit := λ st,
  (Ret (),
   MkState (λ b, if decide (b = a) then Some v else self st b)
           (world st) (next_oid st)).

(** Use of a value as an object of one kind; any other value lacks the
    attribute or protocol asked of it. *)
Definition expect {A} (proj : value → option A) (c : exn_class)
    (what : string) (v : value) : M A :=
  match proj v with
  | Some x => mret x
  | None => raise c ("'" +:+ type_name v +:+ "' object " +:+ what)
  end.

(** [try: body / except Exception as e: handler] *)
Definition try_except (body : M unit) (handler : exn → M unit) : M unit :=
  λ st,
  match body st with
  | (Raise e, st') =>
      if derives_Exception (exn_class_of e) then handler e st'
      else (Raise e, st')
  | (Ret u, st') => (Ret u, st')
  end.

(** The handler shared by [Initialize], [Train] and [Save]. *)
Definition store_error (e : exn) : M unit :=
  setattr error (VPy (PStr (exn_msg e)));;
  setattr exception (VPy (PStr (format_exc e))).

Fixpoint foldM {A B} (f : A → B → M A) (a : A) (l : list B) : M A :=
  match l with
  | [] => mret a
  | x :: l' => a' ← f a x; foldM f a' l'
  end.

(** Read of a local variable whose binding, if any, is [binding]. *)
Definition local_value {A} (name : string) (binding : option A) : M A :=
  match binding with
  | Some x => mret x
  | None =>
      raise UnboundLocalError
        ("cannot access local variable '" +:+ name +:+
         "' where it is not associated with a value")
  end.

(** Call of a function declared with exactly one parameter. *)
Definition call_positional {A} (qualname : string) (f : pyarg → M A)
    (args : list pyarg) : M A :=
  match args with
  | [a] => f a
  | _ =>
      raise TypeError
        (qualname +:+ "() takes 1 positional argument but " +:+
         pretty (length args) +:+ " were given")
  end.

(** ** Model *)

Definition GetHyp (name : string) : M pyval :=
  v ← getattr hyp_fetcher;
  f ← expect fetcher_of AttributeError "has no attribute 'GetHyp'" v;
  call (Fetcher_GetHyp f name).

Definition __init__ (hyperparameters_ : list Hyperparameter) : M unit :=
  setattr hyperparameters (VHyperparameters hyperparameters_);;
  setattr required_training_data (VPy PNone);;
  setattr additional_training_data (VPy PNone);;
  setattr model_data (VPy PNone);;
  device_hyp ← GetHyp "device";
  setattr device
    (VDevice (if py_eq_str device_hyp "GPU" then "cuda" else "cpu"));;
  fetcher ← call (HyperparameterFetcher hyperparameters_);
  setattr hyp_fetcher (VFetcher fetcher);;
  setattr error (VPy PNone);;
  setattr exception (VPy PNone).

(** [Model(hyperparameters)]: a new object with no attribute, handed to
    [__init__]; the object is returned only if [__init__] returns. *)
Definition new_Model (hyperparameters_ : list Hyperparameter)
    (w : World) (n : nat) : res State * World :=
  match __init__ hyperparameters_ (MkState (λ _, None) w n) with
  | (Ret _, st) => (Ret st, world st)
  | (Raise e, st) => (Raise e, world st)
  end.

Definition endswith (s suffix : string) : bool :=
  bool_decide (chars suffix `suffix_of` chars s).

Definition load_data (data_folder : pyarg) : M (list record) :=
  folder ← match data_folder with
           | ArgValue (VPy p) => mret p
           | _ => raise TypeError
                    "listdir: path should be string, bytes, os.PathLike or None"
           end;
  filenames ← call (os_listdir folder);
  foldM (λ data filename,
           if endswith filename ".txt" then
             lines ← call (open_readlines folder filename);
             line0 ← lift_res (py_index lines 0);
             let message := str_strip line0 in
             line1 ← lift_res (py_index lines 1);
             let channel := str_strip line1 in
             line2 ← lift_res (py_index lines 2);
             output ← lift_res (int_of_str (str_strip line2));
             mret (data ++ [(message, channel, output)])
           else mret data)
        [] filenames.

Definition GetMaxLength_arg (data : pyarg) : M Z :=
  match data with
  | ArgRecords d => mret (GetMaxLength d)
  | _ => raise TypeError "object is not iterable"
  end.

(** [s * k] on a string *)
Definition py_str_mul (s : string) (k : Z) : string :=
  String.concat "" (replicate (Z.to_nat k) s).

(** [int(x * n)] for a hyperparameter value [x] and an integer [n] *)
Definition int_of_product (x : pyval) (n : Z) : res Z :=
  match x with
  | PFloat q => Ret (py_int_of_float (q * inject_Z n))
  | PInt z => Ret (z * n)
  | PBool b => Ret ((if b then 1 else 0) * n)
  | PStr s => int_of_str (py_str_mul s n)
  | PNone =>
      Raise (Exn TypeError
               "unsupported operand type(s) for *: 'NoneType' and 'int'")
  end.

(** [random.sample(range(population), k)] *)
Definition random_sample (population : nat) (k : Z) : M (list nat) :=
  if (k <? 0) || (Z.of_nat population <? k) then
    raise ValueError "Sample larger than population or is negative"
  else
    call (λ w, let '(l, w') := random_sample_range population (Z.to_nat k) w in
               (Ret l, w')).

(** [self.CustomDataset(data, max_length=max_length)] *)
Definition new_CustomDataset (data : list record) (max_length : Z)
  : M (obj CustomDataset) :=
  id ← fresh_oid;
  mret (Obj id (CustomDataset__init__ data max_length)).

(** The index lists computed by [SplitDataset] from the drawn sample. *)
Definition val_indices_of (datapoints : nat) (train_indices : list nat)
  : list nat :=
  filter (λ i, i ∉ train_indices) (seq 0 datapoints).

Definition SplitDataset (data : list record) (train_val_ratio : pyval)
    (max_length : Z)
  : M (obj CustomDataset * obj CustomDataset * Z * Z) :=
  let datapoints := length data in
  train_amount ← lift_res (int_of_product train_val_ratio (Z.of_nat datapoints));
  let val_amount := Z.of_nat datapoints - train_amount in
  train_indices ← random_sample datapoints train_amount;
  let val_indices := val_indices_of datapoints train_indices in
  train_data ← lift_res (mapM (λ i : nat, py_index data (Z.of_nat i)) train_indices);
  val_data ← lift_res (mapM (λ i : nat, py_index data (Z.of_nat i)) val_indices);
  train_dataset ← new_CustomDataset train_data max_length;
  val_dataset ← new_CustomDataset val_data max_length;
  mret (train_dataset, val_dataset, train_amount, val_amount).

(** [CreateTrainDataLoader] and [CreateValDataLoader] differ in the dataset
    read, the shuffle hyperparameter and the attribute assigned. *)
Definition CreateDataLoader (dataset_attr : attr) (shuffle_hyp : string)
    (loader_attr : attr) : M unit :=
  dataset ← getattr dataset_attr;
  batch_size ← GetHyp "batch_size";
  shuffle ← GetHyp shuffle_hyp;
  num_workers ← GetHyp "num_workers";
  pin_memory ← GetHyp "pin_memory";
  drop_last ← GetHyp "drop_last";
  d ← expect dataset_of TypeError "is not a dataset" dataset;
  loader ← call (DataLoader_new d batch_size shuffle num_workers pin_memory drop_last);
  id ← fresh_oid;
  setattr loader_attr (VDataLoader (Obj id loader)).

Definition CreateTrainDataLoader : M unit :=
  CreateDataLoader train_dataset "shuffle_train" train_dataloader.

Definition CreateValDataLoader : M unit :=
  CreateDataLoader val_dataset "shuffle_val" val_dataloader.

Definition GetModelSize (model_ : pyarg) : M (Z * Z * Z * Q) :=
  net ← match model_ with
        | ArgValue (VNet n) => mret n
        | _ => raise AttributeError "object has no attribute 'parameters'"
        end;
  params ← call (net_parameters net);
  let total_params :=
    foldl (λ total p, total + foldr Z.mul 1 (param_size p)) 0 params in
  params2 ← call (net_parameters net);
  let trainable_params :=
    foldl (λ total p, if param_requires_grad p
                      then total + foldr Z.mul 1 (param_size p) else total)
          0 params2 in
  let non_trainable_params := total_params - trainable_params in
  params3 ← call (net_parameters net);
  first ← match params3 with
          | p :: _ => mret p
          | [] => raise StopIteration ""
          end;
  let bytes_per_param := param_element_size first in
  let model_size_mb :=
    (inject_Z (total_params * bytes_per_param) / inject_Z (1024 ^ 2))%Q in
  mret (total_params, trainable_params, non_trainable_params, model_size_mb).

(** Lines 193 to 224 of [Initialize]: what follows the computation of the
    maximum length. The local [vocab_size] is bound by the assignment that
    comes after the split, so its read in the first statement finds no
    binding. *)
Definition Initialize_setup (data : list record) (max_length : Z) : M unit :=
  vocab_size0 ← local_value "vocab_size" (None : option pyval);
  embedding_dim ← GetHyp "embedding_dim";
  hidden_dim ← GetHyp "hidden_dim";
  classes ← GetHyp "classes";
  dropout ← GetHyp "dropout";
  max_length_hyp ← GetHyp "max_length";
  net ← call (NeuralNetwork vocab_size0 embedding_dim hidden_dim classes
                            dropout max_length_hyp);
  setattr model (VNet net);;
  ratio ← GetHyp "train_val_ratio";
  '(train_ds, val_ds, train_amount, val_amount) ←
    SplitDataset data ratio max_length;
  setattr train_dataset (VDataset train_ds);;
  setattr val_dataset (VDataset val_ds);;
  setattr train_size (VPy (PInt train_amount));;
  setattr val_size (VPy (PInt val_amount));;
  tds ← getattr train_dataset;
  tds' ← expect dataset_of AttributeError "has no attribute 'vocab'" tds;
  let vocab_size := Z.of_nat (size (vocab (val tds'))) + 1 in
  CreateTrainDataLoader;;
  CreateValDataLoader;;
  new_scaler ← call GradScaler;
  setattr scaler (VScaler new_scaler);;
  new_criterion ← call CrossEntropyLoss;
  setattr criterion (VCriterion new_criterion);;
  m ← getattr model;
  m' ← expect net_of AttributeError "has no attribute 'parameters'" m;
  lr ← GetHyp "learning_rate";
  new_optimizer ← call (Adam m' lr);
  setattr optimizer (VOptimizer new_optimizer);;
  o ← getattr optimizer;
  max_lr ← GetHyp "max_learning_rate";
  tl ← getattr train_dataloader;
  tl' ← expect loader_of TypeError "has no len()" tl;
  steps_per_epoch ← call (DataLoader_len (val tl'));
  epochs ← GetHyp "epochs";
  o' ← expect optimizer_of TypeError "is not an Optimizer" o;
  new_scheduler ← call (OneCycleLR o' max_lr steps_per_epoch epochs);
  setattr scheduler (VScheduler new_scheduler);;
  m2 ← getattr model;
  '(total_params, trainable_params, non_trainable_params, model_size_mb) ←
    call_positional "Model.GetModelSize" GetModelSize [ArgModel; ArgValue m2];
  ts ← getattr train_size;
  vs ← getattr val_size;
  setattr additional_training_data
    (VInfo [("train_size", "Train Size", ts);
            ("val_size", "Val Size", vs);
            ("max_length", "Max Length", VPy (PInt max_length));
            ("vocab_size", "Vocab Size", VPy (PInt vocab_size))]);;
  sc ← getattr scaler;
  cr ← getattr criterion;
  op ← getattr optimizer;
  sd ← getattr scheduler;
  setattr model_data
    (VInfo [("total_params", "Total Parameters", VPy (PInt total_params));
            ("trainable_params", "Trainable Parameters",
             VPy (PInt trainable_params));
            ("non_trainable_params", "Non-trainable Parameters",
             VPy (PInt non_trainable_params));
            ("model_size_mb", "Model Size (MB)", VPy (PFloat model_size_mb));
            ("scaler", "Scaler", VPy (PStr (type_name sc)));
            ("criterion", "Criterion", VPy (PStr (type_name cr)));
            ("optimizer", "Optimizer", VPy (PStr (type_name op)));
            ("scheduler", "Scheduler", VPy (PStr (type_name sd)))]).

(** The body of the [try] of [Initialize] (lines 189 to 224). *)
Definition Initialize_body : M unit :=
  data_folder ← GetHyp "data_folder";
  data ← call_positional "Model.load_data" load_data
           [ArgModel; ArgValue (VPy data_folder)];
  setattr data_length (VPy (PInt (py_len data)));;
  max_length ← call_positional "Model.GetMaxLength" GetMaxLength_arg
                 [ArgModel; ArgRecords data];
  Initialize_setup data max_length.

Definition Initialize : M unit := try_except Initialize_body store_error.

(** [create() if self.GetHyp(hyp) else None] *)
Definition call_if_hyp (hyp : string) (create : M unit) : M unit :=
  flag ← GetHyp hyp;
  if truthy flag then create else mret ().

(** Lines 233 to 235 of [Train]: the loaders to build anew. *)
Definition Train_reshuffle : M unit :=
  each_epoch ← GetHyp "shuffle_each_epoch";
  if truthy each_epoch then
    call_if_hyp "shuffle_train" CreateTrainDataLoader;;
    call_if_hyp "shuffle_val" CreateValDataLoader
  else mret ().

(** Lines 237 to 268 of [Train]: the training phase, the validation phase
    and the record of the two losses. *)
Definition Train_epoch : M unit :=
  (* training phase *)
  m ← getattr model;
  net ← expect net_of AttributeError "has no attribute 'train'" m;
  call (net_train net);;
  tl ← getattr train_dataloader;
  tl' ← expect loader_of TypeError "is not iterable" tl;
  train_batches ← call (DataLoader_iter (val tl'));
  running_training_loss ←
    foldM (λ running batch,
             dev ← getattr device;
             dev' ← expect device_of TypeError "is not a device" dev;
             o ← getattr optimizer;
             o' ← expect optimizer_of AttributeError
                    "has no attribute 'zero_grad'" o;
             mi ← getattr model;
             mi' ← expect net_of TypeError "is not callable" mi;
             c ← getattr criterion;
             c' ← expect criterion_of TypeError "is not callable" c;
             s ← getattr scaler;
             s' ← expect scaler_of AttributeError "has no attribute 'scale'" s;
             d ← getattr scheduler;
             d' ← expect scheduler_of AttributeError
                    "has no attribute 'step'" d;
             loss ← call (train_step dev' o' mi' c' s' d' batch);
             mret (running + loss)%Q)
          0%Q train_batches;
  tl2 ← getattr train_dataloader;
  tl2' ← expect loader_of TypeError "has no len()" tl2;
  train_batches_len ← call (DataLoader_len (val tl2'));
  training_loss ←
    lift_res (py_truediv running_training_loss (inject_Z train_batches_len));
  (* validation phase *)
  me ← getattr model;
  net_e ← expect net_of AttributeError "has no attribute 'eval'" me;
  call (net_eval net_e);;
  _ ← getattr device;
  vl ← getattr val_dataloader;
  vl' ← expect loader_of TypeError "is not iterable" vl;
  val_batches ← call (DataLoader_iter (val vl'));
  running_validation_loss ←
    foldM (λ running batch,
             dev ← getattr device;
             dev' ← expect device_of TypeError "is not a device" dev;
             mi ← getattr model;
             mi' ← expect net_of TypeError "is not callable" mi;
             c ← getattr criterion;
             c' ← expect criterion_of TypeError "is not callable" c;
             loss ← call (eval_step dev' mi' c' batch);
             mret (running + loss)%Q)
          0%Q val_batches;
  vl2 ← getattr val_dataloader;
  vl2' ← expect loader_of TypeError "has no len()" vl2;
  val_batches_len ← call (DataLoader_len (val vl2'));
  validation_loss ←
    lift_res (py_truediv running_validation_loss (inject_Z val_batches_len));
  call cuda_empty_cache;;
  setattr required_training_data
    (VRequiredTrainingData training_loss validation_loss).

(** The body of the [try] of [Train] (lines 233 to 268). *)
Definition Train_body : M unit := Train_reshuffle;; Train_epoch.

Definition Train : M unit := try_except Train_body store_error.

(** [torch.max(row, dim)] on one row of scores: the position of the
    greatest score, the first one among equals; [None] on an empty row. *)
Fixpoint argmax_from (i best_i : Z) (best : Q) (scores : list Q) : Z :=
  match scores with
  | [] => best_i
  | x :: rest =>
      if Qlt_le_dec best x then argmax_from (i + 1) i x rest
      else argmax_from (i + 1) best_i best rest
  end.

Definition argmax (scores : list Q) : option Z :=
  match scores with
  | [] => None
  | x :: rest => Some (argmax_from 1 0 x rest)
  end.

(** [(predicted == labels).sum().item()] *)
Definition count_equal (predicted labels : list Z) : Z :=
  py_len (filter (λ pl, pl.1 = pl.2) (zip predicted labels)).

(** The class predicted for one input row, as computed inside the accuracy
    loops: forward pass, then the position of the greatest score. *)
Definition predict (w : World) (net : Net) (dev : string) (row : list Z)
  : res Z :=
  scores ← forward_row w net dev row;
  match argmax scores with
  | Some i => Ret i
  | None =>
      Raise (Exn IndexError
               "max(): Expected reduction dim 1 to have non-zero size")
  end.

(** One accuracy loop of [Save]: the running [(total, correct)]. *)
Definition accuracy_counts (net : Net) (batches : list Batch) : M (Z * Z) :=
  foldM (λ '(total, correct) batch,
           dev ← getattr device;
           dev' ← expect device_of TypeError "is not a device" dev;
           let inputs := batch.*1 in
           let labels := batch.*2 in
           w ← get_world;
           predicted ← lift_res (mapM (predict w net dev') inputs);
           mret (total + py_len labels, correct + count_equal predicted labels))
        (0, 0) batches.

(** [round(100 * (correct / total), 2)] *)
Definition accuracy_percent (correct total : Z) : res Q :=
  ratio ← py_truediv (inject_Z correct) (inject_Z total);
  Ret (py_round2 (inject_Z 100 * ratio)).

(** The two accuracy computations of [Save] are the same code over
    [train_dataloader] and over [val_dataloader]. *)
Definition dataset_accuracy (net : Net) (loader_attr : attr) : M Q :=
  l ← getattr loader_attr;
  l' ← expect loader_of TypeError "is not iterable" l;
  batches ← call (DataLoader_iter (val l'));
  '(total, correct) ← accuracy_counts net batches;
  lift_res (accuracy_percent correct total).

Definition json_value (v : value) : M pyval :=
  expect py_of TypeError "is not JSON serializable" v.

(** The body of the [try] of [Save] (lines 276 to 328). *)
Definition Save_body (model_ training_data : value) : M unit :=
  call cuda_empty_cache;;
  net ← expect net_of AttributeError "has no attribute 'eval'" model_;
  call (net_eval net);;
  train_accuracy ← dataset_accuracy net train_dataloader;
  let training_dataset_accuracy := float_repr train_accuracy +:+ "%" in
  call cuda_empty_cache;;
  val_accuracy ← dataset_accuracy net val_dataloader;
  let validation_dataset_accuracy := float_repr val_accuracy +:+ "%" in
  call cuda_empty_cache;;
  architecture ← call (net_str net);
  o ← getattr optimizer;
  o' ← expect optimizer_of TypeError "is not an Optimizer" o;
  optimizer_text ← call (optimizer_str o');
  c ← getattr criterion;
  c' ← expect criterion_of TypeError "is not a loss" c;
  loss_text ← call (criterion_str c');
  ts ← getattr train_size;
  vs ← getattr val_size;
  losses ← expect losses_of AttributeError
             "has no attribute 'training_loss'" training_data;
  dl ← getattr data_length;
  ts' ← json_value ts;
  vs' ← json_value vs;
  dl' ← json_value dl;
  metadata ← lift_res (json_dumps_encode
    [("training_os", PStr os_name);
     ("architecture", PStr architecture);
     ("torch_version", PStr torch_version);
     ("numpy_version", PStr numpy_version);
     ("optimizer", PStr optimizer_text);
     ("loss_function", PStr loss_text);
     ("training_size", ts');
     ("validation_size", vs');
     ("training_loss", PFloat losses.1);
     ("validation_loss", PFloat losses.2);
     ("dataset_length", dl');
     ("training_dataset_accuracy", PStr training_dataset_accuracy);
     ("validation_dataset_accuracy", PStr validation_dataset_accuracy)]);
  stamp ← call datetime_now_strftime;
  let model_name := stamp +:+ ".pt" in
  model_path ← GetHyp "model_path";
  present ← call (os_path_exists model_path);
  (if (present : bool) then mret () : M unit
   else model_path2 ← GetHyp "model_path"; call (os_makedirs model_path2));;
  model_path3 ← GetHyp "model_path";
  target ← lift_res (os_path_join model_path3 model_name);
  call (jit_script_save net target metadata);;
  call (print ("Saved " +:+ model_name +:+ " successfully.")).

Definition Save (model_ training_data : value) : M unit :=
  try_except (Save_body model_ training_data) store_error.


(** ** What the properties ask of the frameworks *)

(** [random.sample] returns distinct elements of the population, as many
    as asked for. *)
Definition sample_contract : Prop :=
  ∀ (n k : nat) (w : World), (k ≤ n)%nat →
    let l := (random_sample_range n k w).1 in
    NoDup l ∧ length l = k ∧ ∀ i, i ∈ l → (i < n)%nat.

(** A failed hyperparameter lookup raises an instance of [Exception]. *)
Definition fetcher_contract : Prop :=
  ∀ (f : Fetcher) (name : string) (w w' : World) (e : exn),
    Fetcher_GetHyp f name w = (Raise e, w') →
    derives_Exception (exn_class_of e) = true.

(** An object read from attribute [a] after a call was constructed during
    that call: its identity had not been issued when the call began. *)
Definition rebuilt_by {A} (proj : value → option (obj A)) (a : attr)
    (before after : State) : Prop :=
  ∃ o, self after a ≫= proj = Some o ∧ (next_oid before ≤ oid o)%nat.

(** A computation leaves the attributes selected by [keep] as they are and
    never takes back an identity it has issued. *)
Definition frame {A} (keep : attr → Prop) (m : M A) : Prop :=
  ∀ st, (∀ a, keep a → self (m st).2 a = self st a)
        ∧ (next_oid st ≤ next_oid (m st).2)%nat.

(** Whenever the computation returns from [st], its result and final state
    satisfy [Q]. *)
Definition returns_with {A} (m : M A) (st : State)
    (Q : A → State → Prop) : Prop :=
  ∀ a st', m st = (Ret a, st') → Q a st'.

(** [load_data] as a relation: from the listing [names] and the world [w],
    the records [rs] are read, in the order of the listing, leaving the
    world [w']. A name without the [.txt] ending is passed over; a file
    with that ending contributes its first three lines, stripped, the third
    read as an integer. *)
Inductive loads (folder : pyval)
  : list string → World → list record → World → Prop :=
  | loads_nil (w : World) : loads folder [] w [] w
  | loads_skip (name : string) (names : list string) (w w' : World)
      (rs : list record) :
      endswith name ".txt" = false →
      loads folder names w rs w' →
      loads folder (name :: names) w rs w'
  | loads_file (name : string) (names : list string) (w w1 w' : World)
      (lines : list string) (l0 l1 l2 : string) (z : Z) (rs : list record) :
      endswith name ".txt" = true →
      open_readlines folder name w = (Ret lines, w1) →
      lines !! 0%nat = Some l0 →
      lines !! 1%nat = Some l1 →
      lines !! 2%nat = Some l2 →
      int_of_str (str_strip l2) = Ret z →
      loads folder names w1 rs w' →
      loads folder (name :: names) w
            ((str_strip l0, str_strip l1, z) :: rs) w'.

(** A computation that raises has assigned no attribute and issued no
    identity. *)
Definition raise_frame {A} (m : M A) : Prop :=
  ∀ st e st', m st = (Raise e, st') →
    (∀ a, self st' a = self st a) ∧ next_oid st' = next_oid st.

(** A computation never assigns an attribute nor issues an identity. *)
Definition reads_only {A} (m : M A) : Prop :=
  ∀ st, (∀ a, self (m st).2 a = self st a)
        ∧ next_oid (m st).2 = next_oid st.

(** The number of elements of a parameter tensor. *)
Definition numel (p : param_info) : Z := foldr Z.mul 1 (param_size p).

(** The number of elements of a list of parameter tensors. *)
Definition numel_sum (ps : list param_info) : Z :=
  foldr Z.add 0 (numel <$> ps).

End Program.

(** ** Characters of a list of records, for stating the vocabulary laws *)

Definition record_chars (r : record) : list ascii :=
  chars r.1.1 ++ chars r.1.2.

Definition distinct_chars (data : list record) : gset ascii :=
  list_to_set (data ≫= record_chars).

(** ** A concrete setting

    A data folder with ten well-formed record files, five of each class,
    and a hyperparameter fetcher that looks a name up in the declared list
    and answers [None] for a name that was not declared. *)

Module Demo.

Definition nl : string := String (ascii_of_nat 10) "".

Definition record_file (name message channel label : string)
  : string * list string :=
  (name, [message +:+ nl; channel +:+ nl; label +:+ nl]).

Definition files : list (string * list string) :=
  [ record_file "00.txt" "hello there" "general" "0";
    record_file "01.txt" "good morning" "general" "0";
    record_file "02.txt" "see you" "random" "0";
    record_file "03.txt" "thanks" "help" "0";
    record_file "04.txt" "ok" "general" "0";
    record_file "05.txt" "buy now" "ads" "1";
    record_file "06.txt" "free coins" "random" "1";
    record_file "07.txt" "click here" "ads" "1";
    record_file "08.txt" "win big" "general" "1";
    record_file "09.txt" "cheap" "ads" "1";
    ("notes.md", ["not a record" +:+ nl]) ].

Definition strip (s : string) : string :=
  let is_space c := Ascii.is_space c in
  let fix drop l :=
    match l with
    | c :: l' => if is_space c then drop l' else l
    | [] => []
    end in
  string_of_list_ascii (rev (drop (rev (drop (chars s))))).

Definition digit_of (c : ascii) : option Z :=
  let n := Z.of_nat (nat_of_ascii c) in
  if (48 <=? n) && (n <=? 57) then Some (n - 48) else None.

Definition parse_int (s : string) : res Z :=
  match chars s with
  | [] => Raise (Exn ValueError "invalid literal for int() with base 10")
  | cs =>
      match foldl (λ acc c, a ← acc; d ← digit_of c; Some (10 * a + d))
                  (Some 0) cs with
      | Some z => Ret z
      | None => Raise (Exn ValueError "invalid literal for int() with base 10")
      end
  end.

Fixpoint assoc {K V} `{EqDecision K} (k : K) (l : list (K * V)) : option V :=
  match l with
  | [] => None
  | (k', v) :: l' => if decide (k' = k) then Some v else assoc k l'
  end.

Definition lookup_hyp (f : list (string * pyval)) (name : string) : pyval :=
  default PNone (assoc name f).

(** The sample drawn: the last [k] indices of the range, highest first. *)
Definition sample (n k : nat) : list nat := reverse (seq (n - k) k).

(** One batch holding every item of the dataset. *)
Definition one_batch (d : obj CustomDataset) : res (list Batch) :=
  items ← mapM (λ i : nat, __getitem__ (val d) (Z.of_nat i))
               (seq 0 (length (data (val d))));
  Ret [items].

(** The outside world of the setting is the content of the data folder. *)
Definition Folder : Type := list (string * list string).

#[export] Instance framework : Framework := {|
  World := Folder;
  set_iter := elements;
  random_sample_range n k w := (sample n k, w);
  format_exc e := "Traceback (most recent call last): " +:+ exn_msg e;
  str_strip := strip;
  int_of_str := parse_int;
  float_repr q := pretty (Qnum q) +:+ "/" +:+ pretty (Zpos (Qden q));
  os_name := "posix";
  os_listdir _ w := (Ret (w.*1), w);
  open_readlines _ name w :=
    (match assoc name w with
     | Some lines => Ret lines
     | None => Raise (Exn (OtherException "FileNotFoundError") name)
     end, w);
  os_path_exists _ w := (Ret true, w);
  os_makedirs _ w := (Ret (), w);
  os_path_join _ name := Ret name;
  datetime_now_strftime w := (Ret "2024-01-01-00-00-00", w);
  json_dumps_encode kvs := Ret (String.concat "," (kvs.*1));
  print _ w := (Ret (), w);
  Hyperparameter := string * pyval;
  Fetcher := list (string * pyval);
  HyperparameterFetcher hyps w := (Ret hyps, w);
  Fetcher_GetHyp f name w := (Ret (lookup_hyp f name), w);
  Net := unit;
  DataLoader := list Batch;
  Scaler := unit;
  Criterion := unit;
  Optimizer := unit;
  Scheduler := unit;
  torch_version := "2.0";
  numpy_version := "1.26";
  NeuralNetwork _ _ _ _ _ _ w := (Ret (), w);
  net_parameters _ w := (Ret [ParamInfo [2; 3] true 4], w);
  net_train _ w := (Ret (), w);
  net_eval _ w := (Ret (), w);
  net_str _ w := (Ret "NeuralNetwork()", w);
  optimizer_str _ w := (Ret "Adam()", w);
  criterion_str _ w := (Ret "CrossEntropyLoss()", w);
  forward_row _ _ _ row := Ret [inject_Z 2; inject_Z (hd 0 row)];
  DataLoader_new d _ _ _ _ _ w := (one_batch d, w);
  DataLoader_len l w := (Ret (py_len l), w);
  DataLoader_iter l w := (Ret l, w);
  GradScaler w := (Ret (), w);
  CrossEntropyLoss w := (Ret (), w);
  Adam _ _ w := (Ret (), w);
  OneCycleLR _ _ _ _ w := (Ret (), w);
  train_step _ _ _ _ _ _ _ w := (Ret (1 # 2), w);
  eval_step _ _ _ _ w := (Ret (1 # 4), w);
  cuda_empty_cache w := (Ret (), w);
  jit_script_save _ _ _ w := (Ret (), w)
|}.

Definition net : @Net framework := tt.

(** [ModelTemplate] declaring no class-level attribute. *)
#[export] Instance template : Template := λ _, None.

(** The declared hyperparameters, with their defaults; the split ratio is
    the 0.8 of the end-to-end scenario. *)
Definition hyps : list (@Hyperparameter framework) :=
  [ ("data_path", PStr "data/language_classification");
    ("model_path", PStr "models/language_classification");
    ("device", PStr "CPU");
    ("epochs", PInt 100);
    ("batch_size", PInt 64);
    ("classes", PInt 2);
    ("learning_rate", PFloat (1 # 1000));
    ("max_learning_rate", PFloat (1 # 100));
    ("train_val_ratio", PFloat (8 # 10));
    ("num_workers", PInt 0);
    ("dropout", PFloat (2 # 10));
    ("patience", PInt 25);
    ("shuffle_train", PBool true);
    ("shuffle_val", PBool true);
    ("shuffle_each_epoch", PBool true);
    ("pin_memory", PBool false);
    ("drop_last", PBool false);
    ("embedding_dim", PInt 128);
    ("hidden_dim", PInt 512) ].

Definition set_attrs (kvs : list (attr * value)) : attr → option value :=
  λ a, assoc a kvs.

(** The object as the eight assignments of [__init__] would leave it. *)
Definition constructed : State :=
  MkState
    (set_attrs
       [ (hyperparameters, VHyperparameters hyps);
         (required_training_data, VPy PNone);
         (additional_training_data, VPy PNone);
         (model_data, VPy PNone);
         (device, VDevice "cpu");
         (hyp_fetcher, VFetcher hyps);
         (error, VPy PNone);
         (exception, VPy PNone) ])
    files 0.

(** The ten records of the folder. *)
Definition records : list record :=
  [ ("hello there", "general", 0); ("good morning", "general", 0);
    ("see you", "random", 0); ("thanks", "help", 0); ("ok", "general", 0);
    ("buy now", "ads", 1); ("free coins", "random", 1);
    ("click here", "ads", 1); ("win big", "general", 1);
    ("cheap", "ads", 1) ].

(** A model object on which setup has been completed by hand: datasets of
    eight and two records, their loaders, and the torch objects. *)
Definition train_ds : obj CustomDataset :=
  Obj 0 (CustomDataset__init__ (take 8 records) 12).

Definition val_ds : obj CustomDataset :=
  Obj 1 (CustomDataset__init__ (drop 8 records) 12).

Definition loader_of_ds (id : nat) (d : obj CustomDataset)
  : obj (list Batch) :=
  Obj id (match one_batch d with Ret l => l | Raise _ => [] end).

Definition ready : State :=
  MkState
    (set_attrs
       [ (hyperparameters, VHyperparameters hyps);
         (required_training_data, VPy PNone);
         (additional_training_data, VPy PNone);
         (model_data, VPy PNone);
         (device, VDevice "cpu");
         (hyp_fetcher, VFetcher hyps);
         (error, VPy PNone);
         (exception, VPy PNone);
         (data_length, VPy (PInt 10));
         (model, VNet ());
         (train_dataset, VDataset train_ds);
         (val_dataset, VDataset val_ds);
         (train_size, VPy (PInt 8));
         (val_size, VPy (PInt 2));
         (train_dataloader, VDataLoader (loader_of_ds 2 train_ds));
         (val_dataloader, VDataLoader (loader_of_ds 3 val_ds));
         (scaler, VScaler ());
         (criterion, VCriterion ());
         (optimizer, VOptimizer ());
         (scheduler, VScheduler ()) ])
    files 4.

(** Two records whose channels are longer than every message. *)
Definition short_records : list record :=
  [ ("ok", "general", 0); ("hi", "random", 1) ].

Definition short_ds : CustomDataset :=
  CustomDataset__init__ short_records (GetMaxLength short_records).

(** A folder whose second record file holds one line only. *)
Definition broken_files : list (string * list string) :=
  [ record_file "00.txt" "hello there" "general" "0";
    ("01.txt", ["good morning" +:+ nl]);
    record_file "02.txt" "see you" "random" "0" ].

Definition broken : State := MkState (self constructed) broken_files 0.

(** The model object set up by hand, with a training loader that yields no
    batch. *)
Definition unfed : State :=
  MkState
    (λ a, if decide (a = train_dataloader)
          then Some (VDataLoader (Obj 2 [])) else self ready a)
    files 4.

(** The same setting with networks that are the lists of their
    parameters. *)
Definition parameter_framework : Framework := {|
  World := Folder;
  set_iter := elements;
  random_sample_range n k w := (sample n k, w);
  format_exc e := "Traceback (most recent call last): " +:+ exn_msg e;
  str_strip := strip;
  int_of_str := parse_int;
  float_repr q := pretty (Qnum q) +:+ "/" +:+ pretty (Zpos (Qden q));
  os_name := "posix";
  os_listdir _ w := (Ret (w.*1), w);
  open_readlines _ name w :=
    (match assoc name w with
     | Some lines => Ret lines
     | None => Raise (Exn (OtherException "FileNotFoundError") name)
     end, w);
  os_path_exists _ w := (Ret true, w);
  os_makedirs _ w := (Ret (), w);
  os_path_join _ name := Ret name;
  datetime_now_strftime w := (Ret "2024-01-01-00-00-00", w);
  json_dumps_encode kvs := Ret (String.concat "," (kvs.*1));
  print _ w := (Ret (), w);
  Hyperparameter := string * pyval;
  Fetcher := list (string * pyval);
  HyperparameterFetcher hyps w := (Ret hyps, w);
  Fetcher_GetHyp f name w := (Ret (lookup_hyp f name), w);
  Net := list param_info;
  DataLoader := list Batch;
  Scaler := unit;
  Criterion := unit;
  Optimizer := unit;
  Scheduler := unit;
  torch_version := "2.0";
  numpy_version := "1.26";
  NeuralNetwork _ _ _ _ _ _ w := (Ret [], w);
  net_parameters n w := (Ret n, w);
  net_train _ w := (Ret (), w);
  net_eval _ w := (Ret (), w);
  net_str _ w := (Ret "NeuralNetwork()", w);
  optimizer_str _ w := (Ret "Adam()", w);
  criterion_str _ w := (Ret "CrossEntropyLoss()", w);
  forward_row _ _ _ row := Ret [inject_Z 2; inject_Z (hd 0 row)];
  DataLoader_new d _ _ _ _ _ w := (one_batch d, w);
  DataLoader_len l w := (Ret (py_len l), w);
  DataLoader_iter l w := (Ret l, w);
  GradScaler w := (Ret (), w);
  CrossEntropyLoss w := (Ret (), w);
  Adam _ _ w := (Ret (), w);
  OneCycleLR _ _ _ _ w := (Ret (), w);
  train_step _ _ _ _ _ _ _ w := (Ret (1 # 2), w);
  eval_step _ _ _ _ w := (Ret (1 # 4), w);
  cuda_empty_cache w := (Ret (), w);
  jit_script_save _ _ _ w := (Ret (), w)
|}.

(** An embedding and a linear layer with a frozen bias, in 4-byte
    elements. *)
Definition layers : list param_info :=
  [ ParamInfo [20; 8] true 4; ParamInfo [8; 2] true 4; ParamInfo [2] false 4 ].

Definition blank : @State parameter_framework :=
  @MkState parameter_framework (λ _, None) [] 0.

End Demo.

(** * Properties *)

(** ** Encoding, vocabulary and maximum length *)

Section DatasetProperties.
Context {F : Framework}.

Lemma length_chars (s : string) : length (chars s) = String.length s.
Proof. unfold chars. induction s as [|a s IH]; simpl; congruence. Qed.







(** *** GetMaxLength *)

Local Abbreviation max_step :=
  (λ (max_length : Z) (r : record),
     let '(message, _, _) := r in
     if max_length <? py_len (chars message)
     then py_len (chars message) else max_length).

Lemma max_step_max (a : Z) (m c : string) (l : Z) :
  max_step a (m, c, l) = Z.max a (Z.of_nat (String.length m)).
Proof.
  simpl. unfold py_len. rewrite length_chars.
  destruct (Z.ltb_spec a (Z.of_nat (String.length m))); lia.
Qed.

Lemma GetMaxLength_foldl (data : list record) (a : Z) :
  0 ≤ a → foldl max_step a data = Z.max a (foldl max_step 0 data).
Proof.
  revert a. induction data as [|[[m c] l] data IH]; intros a Ha.
  - simpl. lia.
  - cbn [foldl]. rewrite !(max_step_max _ m c l).
    rewrite (IH (Z.max a _)) by lia. rewrite (IH (Z.max 0 _)) by lia. lia.
Qed.

Lemma GetMaxLength_cons (m c : string) (l : Z) (data : list record) :
  GetMaxLength ((m, c, l) :: data)
  = Z.max (Z.of_nat (String.length m)) (GetMaxLength data).
Proof.
  unfold GetMaxLength. cbn [foldl]. rewrite (max_step_max _ m c l).
  rewrite GetMaxLength_foldl by lia. lia.
Qed.

Lemma GetMaxLength_nonneg (data : list record) : 0 ≤ GetMaxLength data.
Proof.
  induction data as [|[[m c] l] data IH]; [done|].
  rewrite GetMaxLength_cons. lia.
Qed.





(** *** Vocabulary *)

Lemma dict_comp_snoc {K V} `{Countable K} (kvs : list (K * V)) (k : K) (v : V) :
  dict_comp (kvs ++ [(k, v)]) = <[k := v]> (dict_comp kvs).
Proof. unfold dict_comp. by rewrite foldl_snoc. Qed.

Lemma dict_comp_lookup {K V} `{Countable K} (kvs : list (K * V)) (k : K) (v : V) :
  NoDup (kvs.*1) → dict_comp kvs !! k = Some v ↔ (k, v) ∈ kvs.
Proof.
  induction kvs as [|[k' v'] kvs IH] using rev_ind; intros Hnd.
  - unfold dict_comp. simpl. rewrite lookup_empty. split; [done|].
    intros Hin. by apply elem_of_nil in Hin.
  - rewrite fmap_app in Hnd. apply NoDup_app in Hnd as (Hnd & Hfresh & _).
    rewrite dict_comp_snoc, elem_of_app, list_elem_of_singleton.
    destruct (decide (k' = k)) as [->|Hne].
    + rewrite lookup_insert_eq. split.
      * intros [= ->]. by right.
      * intros [Hin|[= ->]]; [|done].
        exfalso. apply (Hfresh k).
        -- apply list_elem_of_fmap. by exists (k, v).
        -- simpl. apply list_elem_of_singleton. done.
    + rewrite lookup_insert_ne by done. rewrite (IH Hnd). split.
      * by left.
      * intros [Hin|[= -> _]]; done.
Qed.

Local Abbreviation vocab_step :=
  (λ (vocab : gset ascii) (r : record),
     let '(message, channel, _) := r in
     (vocab ∪ list_to_set (chars message)) ∪ list_to_set (chars channel)).

Lemma vocab_set_foldl (data : list record) (acc : gset ascii) :
  foldl vocab_step acc data = acc ∪ distinct_chars data.
Proof.
  revert acc. induction data as [|[[m c] l] data IH]; intros acc.
  - unfold distinct_chars. simpl. by rewrite (right_id_L ∅ (∪)).
  - cbn [foldl]. rewrite IH. unfold distinct_chars, record_chars.
    simpl. rewrite !list_to_set_app_L. by rewrite !(assoc_L (∪)).
Qed.

Lemma elem_of_distinct_chars (data : list record) (c : ascii) :
  c ∈ distinct_chars data
  ↔ ∃ r : record, r ∈ data ∧ (c ∈ chars r.1.1 ∨ c ∈ chars r.1.2).
Proof.
  unfold distinct_chars. rewrite elem_of_list_to_set, list_elem_of_bind.
  unfold record_chars. split.
  - intros (r & Hc & Hr). exists r. by rewrite <-elem_of_app.
  - intros (r & Hr & Hc). exists r. by rewrite elem_of_app.
Qed.

Lemma build_vocab_lookup (data : list record) (c : ascii) (id : Z) :
  (∀ s, set_iter s ≡ₚ elements s) →
  build_vocab data !! c = Some id
  ↔ ∃ i : nat, set_iter (distinct_chars data) !! i = Some c
               ∧ id = Z.of_nat i + 1.
Proof.
  intros Hiter. unfold build_vocab.
  rewrite vocab_set_foldl, (left_id_L ∅ (∪)).
  rewrite dict_comp_lookup.
  - rewrite elem_of_lookup_imap. split.
    + intros (i & y & [= -> ->] & Hi). eauto.
    + intros (i & Hi & ->). eauto.
  - rewrite fmap_imap.
    rewrite (imap_ext _ (const (λ x, x))) by done.
    rewrite imap_const, list_fmap_id, Hiter. apply NoDup_elements.
Qed.

(** C6. Provided iterating a set lists its elements once each, [build_vocab]
    gives an id to exactly the characters that occur in a message or a
    channel, the ids are the numbers 1 to N for N distinct characters, each
    used for one character, so that 0 is no character's id; and [encode]
    writes 0 at the position of a character without an id. *)
Theorem build_vocab_numbers_characters (data : list record) :
  (∀ s, set_iter s ≡ₚ elements s) →
  let V := build_vocab data in
  let N := Z.of_nat (size (distinct_chars data)) in
  (∀ c, (∃ r : record, r ∈ data ∧ (c ∈ chars r.1.1 ∨ c ∈ chars r.1.2))
        ↔ is_Some (V !! c))
  ∧ (∀ c id, V !! c = Some id → 1 ≤ id ≤ N)
  ∧ (∀ id, 1 ≤ id ≤ N → ∃ c, V !! c = Some id)
  ∧ (∀ c1 c2 id, V !! c1 = Some id → V !! c2 = Some id → c1 = c2)
  ∧ (∀ (ds : CustomDataset) (text : string) (i : nat) (c : ascii),
       chars text !! i = Some c → vocab ds !! c = None →
       encode ds text !! i = Some 0).
Proof.
  intros Hiter V N.
  assert (Hlen : length (set_iter (distinct_chars data))
                 = size (distinct_chars data)).
  { by rewrite Hiter. }
  split_and!.
  - intros c. split.
    + intros Hc. apply elem_of_distinct_chars in Hc.
      apply elem_of_elements in Hc. rewrite <-Hiter in Hc.
      apply list_elem_of_lookup in Hc as [i Hi].
      exists (Z.of_nat i + 1). apply build_vocab_lookup; eauto.
    + intros [id Hid].
      apply build_vocab_lookup in Hid as (i & Hi & _); [|done].
      apply elem_of_distinct_chars. apply elem_of_elements. rewrite <-Hiter.
      by apply list_elem_of_lookup_2 in Hi.
  - intros c id Hid.
    apply build_vocab_lookup in Hid as (i & Hi & ->); [|done].
    apply lookup_lt_Some in Hi. unfold N. lia.
  - intros id [Hlo Hhi].
    destruct (lookup_lt_is_Some_2 (set_iter (distinct_chars data))
                (Z.to_nat (id - 1))) as [c Hc]; [unfold N in Hhi; lia|].
    exists c. apply build_vocab_lookup; [done|].
    exists (Z.to_nat (id - 1)). split; [done|lia].
  - intros c1 c2 id H1 H2.
    apply build_vocab_lookup in H1 as (i1 & Hi1 & ->); [|done].
    apply build_vocab_lookup in H2 as (i2 & Hi2 & Heq); [|done].
    assert (i1 = i2) as -> by lia. congruence.
  - intros ds text i c Hc Hnone. unfold encode.
    rewrite lookup_app_l.
    + rewrite list_lookup_fmap, Hc. simpl. by rewrite Hnone.
    + rewrite length_fmap. by apply lookup_lt_Some in Hc.
Qed.

End DatasetProperties.

(** ** The method monad *)

Section MonadLaws.
Context {F : Framework} {T : Template}.

Lemma bind_ret {A B} (m : M A) (k : A → M B) (st st' : State) (a : A) :
  m st = (Ret a, st') → (m ≫= k) st = k a st'.
Proof. intros H. unfold mbind, M_bind. by rewrite H. Qed.

Lemma bind_raise {A B} (m : M A) (k : A → M B) (st st' : State) (e : exn) :
  m st = (Raise e, st') → (m ≫= k) st = (Raise e, st').
Proof. intros H. unfold mbind, M_bind. by rewrite H. Qed.

Lemma lift_res_ret {A} (a : A) (st : State) : lift_res (Ret a) st = (Ret a, st).
Proof. done. Qed.

End MonadLaws.

(** ** Splitting *)

Section SplitProperties.
Context {F : Framework} {T : Template}.

Lemma py_index_nat {A} (l : list A) (i : nat) (x : A) :
  l !! i = Some x → py_index l (Z.of_nat i) = Ret x.
Proof.
  intros H. unfold py_index.
  destruct (Z.leb_spec 0 (Z.of_nat i)) as [_|?]; [|lia].
  destruct (Z.leb_spec 0 (Z.of_nat i)) as [_|?]; [|lia].
  by rewrite Nat2Z.id, H.
Qed.

Lemma mapM_py_index (records : list record) (l : list nat) :
  Forall (λ i, (i < length records)%nat) l →
  ∃ rs, mapM (λ i : nat, py_index records (Z.of_nat i)) l = Ret rs
        ∧ Forall2 (λ i rec, records !! i = Some rec) l rs.
Proof.
  induction 1 as [|i l Hi Hl (rs & Hrs & Hall)].
  - exists []. split; [done|constructor].
  - destruct (lookup_lt_is_Some_2 records i Hi) as [rec Hrec].
    exists (rec :: rs). split; [|by constructor].
    cbn [mapM]. rewrite (py_index_nat _ _ _ Hrec). cbn. by rewrite Hrs.
Qed.

Lemma val_indices_spec (n : nat) (train_indices : list nat) (i : nat) :
  i ∈ val_indices_of n train_indices ↔ (i < n)%nat ∧ i ∉ train_indices.
Proof.
  unfold val_indices_of. rewrite list_elem_of_filter, elem_of_seq.
  split; intros [? ?]; split; (done || lia).
Qed.

Lemma split_indices_permutation (n : nat) (train_indices : list nat) :
  NoDup train_indices →
  (∀ i, i ∈ train_indices → (i < n)%nat) →
  train_indices ++ val_indices_of n train_indices ≡ₚ seq 0 n.
Proof.
  intros Hnd Hlt. apply NoDup_Permutation.
  - apply NoDup_app. split; [done|]. split.
    + intros i Hi Hv. apply val_indices_spec in Hv. tauto.
    + unfold val_indices_of. apply NoDup_filter, NoDup_seq.
  - apply NoDup_seq.
  - intros i. rewrite elem_of_app, val_indices_spec, elem_of_seq. split.
    + intros [Hi|[Hi _]]; [apply Hlt in Hi|]; lia.
    + intros [_ Hi]. destruct (decide (i ∈ train_indices)); [by left|right].
      split; [lia|done].
Qed.



End SplitProperties.

(** ** Accuracy *)

Section AccuracyProperties.
Context {F : Framework} {T : Template}.





Lemma getattr_state (a : attr) (st : State) : (getattr a st).2 = st.
Proof. unfold getattr. by repeat case_match. Qed.



End AccuracyProperties.

(** ** Construction and initialization *)

Section ModelProperties.
Context {F : Framework} {T : Template}.

Lemma getattr_unset (a : attr) (st : State) :
  self st a = None →
  (∀ f, class_attr a ≠ Some (VFetcher f)) →
  a = hyp_fetcher →
  ∃ e, GetHyp "device" st = (Raise e, st) ∧ exn_class_of e = AttributeError.
Proof.
  intros Hself Hclass ->. unfold GetHyp.
  destruct (class_attr hyp_fetcher) as [v|] eqn:Hc.
  - erewrite bind_ret; last first.
    { unfold getattr. rewrite Hself, Hc. reflexivity. }
    destruct v; try (eexists; split; [reflexivity|done]).
    by destruct (Hclass f).
  - eexists. split.
    + erewrite bind_raise; [reflexivity|].
      unfold getattr. by rewrite Hself, Hc.
    + reflexivity.
Qed.

(** C3. Unless [ModelTemplate] itself provides a fetcher under the name
    [hyp_fetcher], constructing a model raises [AttributeError] for every
    list of hyperparameters: the read of the device hyperparameter comes
    before the assignment of [hyp_fetcher], and nothing in [__init__]
    catches the exception, so no object is returned. *)
Theorem Model_construction_raises
    (hyperparameters_ : list Hyperparameter) (w : World) (n : nat) :
  (∀ f, class_attr hyp_fetcher ≠ Some (VFetcher f)) →
  ∃ e, new_Model hyperparameters_ w n = (Raise e, w)
       ∧ exn_class_of e = AttributeError.
Proof.
  intros Hclass. unfold new_Model, __init__.
  do 4 (erewrite bind_ret; [|reflexivity]).
  match goal with
  | |- context [ (GetHyp "device" ≫= ?k) ?s ] =>
      destruct (getattr_unset hyp_fetcher s) as (e & He & Hcls);
        [reflexivity|exact Hclass|reflexivity|];
      rewrite (bind_raise _ k _ _ _ He)
  end.
  exists e. split; [reflexivity|exact Hcls].
Qed.

Lemma GetHyp_outcome (name : string) (st : State) :
  fetcher_contract →
  ∃ r w, GetHyp name st = (r, MkState (self st) w (next_oid st))
         ∧ ∀ e, r = Raise e → derives_Exception (exn_class_of e) = true.
Proof.
  intros Hfetch. destruct st as [s w n]. unfold GetHyp, getattr. simpl.
  assert (Hv : ∀ v : value,
    ∃ r w', (expect fetcher_of AttributeError "has no attribute 'GetHyp'" v
             ≫= λ f, call (Fetcher_GetHyp f name)) (MkState s w n)
            = (r, MkState s w' n)
            ∧ ∀ e, r = Raise e → derives_Exception (exn_class_of e) = true).
  { intros v. destruct v;
      try (eexists _, _; split; [reflexivity|]; by intros e [= <-]).
    unfold expect, mbind, M_bind, mret, M_ret, call. simpl.
    destruct (Fetcher_GetHyp f name w) as [r w'] eqn:Hr.
    exists r, w'. split; [by destruct r|].
    intros e ->. by eapply Hfetch. }
  unfold mbind at 1, M_bind at 1. cbn [self].
  destruct (s hyp_fetcher) as [v|]; [apply Hv|].
  destruct (class_attr hyp_fetcher) as [v|]; [apply Hv|].
  eexists _, _. split; [reflexivity|]. by intros e [= <-].
Qed.

Lemma Initialize_body_raises (st : State) :
  fetcher_contract →
  ∃ e w, Initialize_body st = (Raise e, MkState (self st) w (next_oid st))
         ∧ derives_Exception (exn_class_of e) = true
         ∧ ∀ v st1, GetHyp "data_folder" st = (Ret v, st1) →
             e = Exn TypeError
                   "Model.load_data() takes 1 positional argument but 2 were given".
Proof.
  intros Hfetch.
  destruct (GetHyp_outcome "data_folder" st Hfetch) as (r & w & Hr & Hexc).
  unfold Initialize_body. destruct r as [v|e].
  - erewrite bind_ret; [|exact Hr].
    eexists _, w. split; [reflexivity|]. split; [reflexivity|].
    intros v' st1 Hv. reflexivity.
  - exists e, w. split; [by erewrite bind_raise|].
    split; [by apply Hexc|].
    intros v st1 Hv. rewrite Hr in Hv. done.
Qed.

Lemma try_except_caught (body : M unit) (handler : exn → M unit)
    (st st1 : State) (e : exn) :
  body st = (Raise e, st1) →
  derives_Exception (exn_class_of e) = true →
  try_except body handler st = handler e st1.
Proof. intros Hb He. unfold try_except. by rewrite Hb, He. Qed.

Lemma try_except_returned (body : M unit) (handler : exn → M unit)
    (st st1 : State) (u : ()) :
  body st = (Ret u, st1) → try_except body handler st = (Ret u, st1).
Proof. intros Hb. unfold try_except. by rewrite Hb. Qed.

Lemma store_error_run (e : exn) (st : State) :
  ∃ st', store_error e st = (Ret (), st')
         ∧ self st' error = Some (VPy (PStr (exn_msg e)))
         ∧ self st' exception = Some (VPy (PStr (format_exc e)))
         ∧ (∀ a, a ≠ error → a ≠ exception → self st' a = self st a)
         ∧ world st' = world st
         ∧ next_oid st' = next_oid st.
Proof.
  eexists. split; [reflexivity|]. simpl. split_and!; try done.
  intros a H1 H2. by rewrite !decide_False.
Qed.

(** C2. The statement that builds the network reads the local [vocab_size]
    before any assignment to it, so the statements from there on raise
    [UnboundLocalError] in every state. And, provided a failed
    hyperparameter lookup raises an instance of [Exception], [Initialize]
    returns in every state with the message and the trace of an exception
    stored in [error] and [exception] and no other attribute assigned: when
    the lookup of the data folder returns, that exception is the
    [TypeError] of calling the one-parameter [load_data] with the model
    object and the folder. *)
Theorem Initialize_always_stores_error (st : State) :
  fetcher_contract →
  (∀ (records : list record) (width : Z) (st0 : State),
     ∃ e, Initialize_setup records width st0 = (Raise e, st0)
          ∧ exn_class_of e = UnboundLocalError)
  ∧ ∃ e st',
      Initialize st = (Ret (), st')
      ∧ self st' error = Some (VPy (PStr (exn_msg e)))
      ∧ self st' exception = Some (VPy (PStr (format_exc e)))
      ∧ (∀ a, a ≠ error → a ≠ exception → self st' a = self st a)
      ∧ next_oid st' = next_oid st
      ∧ (∀ v st1, GetHyp "data_folder" st = (Ret v, st1) →
           e = Exn TypeError
                 "Model.load_data() takes 1 positional argument but 2 were given").
Proof.
  intros Hfetch. split.
  - intros records width st0. eexists. split; reflexivity.
  - destruct (Initialize_body_raises st Hfetch) as (e & w & Hbody & Hexc & Hty).
    destruct (store_error_run e (MkState (self st) w (next_oid st)))
      as (st' & Hst' & Herr & Hexn & Hframe & _ & Hoid).
    exists e, st'. unfold Initialize.
    rewrite (try_except_caught _ _ _ _ _ Hbody Hexc). by split_and!.
Qed.

(** C7. In [Initialize], [Train] and [Save] alike: when the body of the
    [try] raises an instance of [Exception], the method itself returns, with
    the message of the exception in [error], its trace in [exception], and
    everything else as the body left it; and when the body returns, so does
    the method, with the state the body produced. *)
Theorem failures_are_stored (st : State) (model_ training_data : value) :
  let stores (body method : M unit) :=
    (∀ e st1, body st = (Raise e, st1) →
       derives_Exception (exn_class_of e) = true →
       ∃ st', method st = (Ret (), st')
              ∧ self st' error = Some (VPy (PStr (exn_msg e)))
              ∧ self st' exception = Some (VPy (PStr (format_exc e)))
              ∧ (∀ a, a ≠ error → a ≠ exception → self st' a = self st1 a)
              ∧ world st' = world st1)
    ∧ (∀ st1, body st = (Ret (), st1) → method st = (Ret (), st1)) in
  stores Initialize_body Initialize
  ∧ stores Train_body Train
  ∧ stores (Save_body model_ training_data) (Save model_ training_data).
Proof.
  assert (Hgen : ∀ body : M unit,
    (∀ e st1, body st = (Raise e, st1) →
       derives_Exception (exn_class_of e) = true →
       ∃ st', try_except body store_error st = (Ret (), st')
              ∧ self st' error = Some (VPy (PStr (exn_msg e)))
              ∧ self st' exception = Some (VPy (PStr (format_exc e)))
              ∧ (∀ a, a ≠ error → a ≠ exception → self st' a = self st1 a)
              ∧ world st' = world st1)
    ∧ (∀ st1, body st = (Ret (), st1) →
         try_except body store_error st = (Ret (), st1))).
  { intros body. split.
    - intros e st1 Hbody Hexc.
      destruct (store_error_run e st1)
        as (st' & Hst' & Herr & Hexn & Hframe & Hw & _).
      exists st'. rewrite (try_except_caught _ _ _ _ _ Hbody Hexc).
      by split_and!.
    - intros st1 Hbody. by apply try_except_returned. }
  intros stores. unfold stores, Initialize, Train, Save.
  split_and!; apply Hgen.
Qed.

End ModelProperties.

(** ** What a call leaves untouched *)

Section Frames.
Context {F : Framework} {T : Template}.

Lemma frame_ret {A} (keep : attr → Prop) (a : A) : frame keep (mret a).
Proof. intros st. simpl. auto. Qed.

Lemma frame_raise {A} (keep : attr → Prop) (c : exn_class) (msg : string) :
  frame keep (raise c msg : M A).
Proof. intros st. simpl. auto. Qed.

Lemma frame_lift_res {A} (keep : attr → Prop) (r : res A) :
  frame keep (lift_res r).
Proof. intros st. simpl. auto. Qed.

Lemma frame_call {A} (keep : attr → Prop) (f : eff World A) :
  frame keep (call f).
Proof. intros st. unfold call. destruct (f (world st)). simpl. auto. Qed.

Lemma frame_get_world (keep : attr → Prop) : frame keep get_world.
Proof. intros st. simpl. auto. Qed.

Lemma frame_fresh_oid (keep : attr → Prop) : frame keep fresh_oid.
Proof. intros st. simpl. auto. Qed.

Lemma frame_getattr (keep : attr → Prop) (a : attr) : frame keep (getattr a).
Proof. intros st. rewrite getattr_state. auto. Qed.

Lemma frame_setattr (keep : attr → Prop) (a : attr) (v : value) :
  ¬ keep a → frame keep (setattr a v).
Proof.
  intros Hno st. simpl. split; [|done].
  intros b Hb. rewrite decide_False; [done|]. by intros ->.
Qed.

Lemma frame_bind {A B} (keep : attr → Prop) (m : M A) (k : A → M B) :
  frame keep m → (∀ a, frame keep (k a)) → frame keep (m ≫= k).
Proof.
  intros Hm Hk st. unfold mbind, M_bind.
  destruct (Hm st) as [Hm1 Hm2]. destruct (m st) as [[a|e] st1]; simpl in *.
  - destruct (Hk a st1) as [Hk1 Hk2]. split; [|lia].
    intros b Hb. by rewrite Hk1, Hm1.
  - auto.
Qed.

Lemma frame_expect {A} (keep : attr → Prop) (proj : value → option A)
    (c : exn_class) (what : string) (v : value) :
  frame keep (expect proj c what v).
Proof. unfold expect. destruct (proj v); [apply frame_ret|apply frame_raise]. Qed.

Lemma frame_foldM {A B} (keep : attr → Prop) (f : A → B → M A) (a : A)
    (l : list B) :
  (∀ a x, frame keep (f a x)) → frame keep (foldM f a l).
Proof.
  intros Hf. revert a. induction l as [|x l IH]; intros a; simpl.
  - apply frame_ret.
  - apply frame_bind; [apply Hf|apply IH].
Qed.

Lemma frame_try_except (keep : attr → Prop) (body : M unit)
    (handler : exn → M unit) :
  frame keep body → (∀ e, frame keep (handler e)) →
  frame keep (try_except body handler).
Proof.
  intros Hb Hh st. unfold try_except.
  destruct (Hb st) as [Hb1 Hb2]. destruct (body st) as [[u|e] st1]; simpl in *.
  - auto.
  - destruct (derives_Exception (exn_class_of e)); [|simpl; auto].
    destruct (Hh e st1) as [Hh1 Hh2]. split; [|lia].
    intros b Hkb. by rewrite Hh1, Hb1.
Qed.

Lemma frame_weaken {A} (keep keep' : attr → Prop) (m : M A) :
  (∀ a, keep' a → keep a) → frame keep m → frame keep' m.
Proof. intros Hsub Hm st. destruct (Hm st). split; auto. Qed.

Ltac frame_step :=
  first
    [ apply frame_ret | apply frame_raise | apply frame_lift_res
    | apply frame_call | apply frame_get_world | apply frame_fresh_oid
    | apply frame_getattr | apply frame_expect
    | apply frame_setattr; solve [intros ?; intuition congruence]
    | apply frame_bind; [|intros ?]
    | apply frame_foldM; intros ? ?
    | match goal with
      | |- frame _ (if ?b then _ else _) => destruct b
      | |- frame _ (match ?x with _ => _ end) => destruct x
      | |- frame _ (let '(_, _) := ?x in _) => destruct x
      end ].

Lemma frame_GetHyp (keep : attr → Prop) (name : string) :
  frame keep (GetHyp name).
Proof. unfold GetHyp. repeat frame_step. Qed.

Lemma frame_CreateDataLoader (keep : attr → Prop)
    (dataset_attr : attr) (shuffle_hyp : string) (loader_attr : attr) :
  ¬ keep loader_attr →
  frame keep (CreateDataLoader dataset_attr shuffle_hyp loader_attr).
Proof.
  intros Hno. unfold CreateDataLoader.
  repeat first [apply frame_GetHyp | by apply frame_setattr | frame_step].
Qed.

Lemma frame_call_if_hyp (keep : attr → Prop) (hyp : string) (create : M unit) :
  frame keep create → frame keep (call_if_hyp hyp create).
Proof.
  intros Hc. unfold call_if_hyp.
  apply frame_bind; [apply frame_GetHyp|intros flag].
  destruct (truthy flag); [done|apply frame_ret].
Qed.

Lemma frame_Train_reshuffle (keep : attr → Prop) :
  ¬ keep train_dataloader → ¬ keep val_dataloader →
  frame keep Train_reshuffle.
Proof.
  intros H1 H2. unfold Train_reshuffle.
  apply frame_bind; [apply frame_GetHyp|intros each].
  destruct (truthy each); [|apply frame_ret].
  apply frame_bind; [|intros _];
    by apply frame_call_if_hyp, frame_CreateDataLoader.
Qed.

Lemma frame_Train_epoch (keep : attr → Prop) :
  ¬ keep required_training_data → frame keep Train_epoch.
Proof.
  intros Hno. unfold Train_epoch.
  repeat first [by apply frame_setattr | frame_step].
Qed.

Lemma frame_store_error (keep : attr → Prop) (e : exn) :
  ¬ keep error → ¬ keep exception → frame keep (store_error e).
Proof.
  intros H1 H2. unfold store_error.
  apply frame_bind; [|intros _]; by apply frame_setattr.
Qed.

Lemma frame_Train (keep : attr → Prop) :
  ¬ keep train_dataloader → ¬ keep val_dataloader →
  ¬ keep required_training_data → ¬ keep error → ¬ keep exception →
  frame keep Train.
Proof.
  intros. unfold Train, Train_body.
  apply frame_try_except.
  - apply frame_bind; [by apply frame_Train_reshuffle|].
    intros _. by apply frame_Train_epoch.
  - intros e. by apply frame_store_error.
Qed.

(** *** Following a run through its binds *)

Lemma bind_assoc {A B C} (m : M A) (k : A → M B) (k' : B → M C) (st : State) :
  ((m ≫= k) ≫= k') st = (m ≫= λ a, k a ≫= k') st.
Proof.
  unfold mbind, M_bind. destruct (m st) as [[a|e] st1]; [|done].
  by destruct (k a st1) as [[b|e] st2].
Qed.

Lemma bind_inv_ret {A B} (m : M A) (k : A → M B) (st : State) (b : B) :
  ((m ≫= k) st).1 = Ret b →
  ∃ a, (m st).1 = Ret a ∧ (m ≫= k) st = k a (m st).2.
Proof.
  unfold mbind, M_bind. destruct (m st) as [[a|e] st1]; simpl; [|done].
  intros _. by exists a.
Qed.

Lemma try_except_body (body body' : M unit) (handler : exn → M unit)
    (st st' : State) :
  body st = body' st' →
  try_except body handler st = try_except body' handler st'.
Proof. intros H. unfold try_except. by rewrite H. Qed.

Lemma GetHyp_state (name : string) (st : State) :
  ∃ w, (GetHyp name st).2 = MkState (self st) w (next_oid st).
Proof.
  destruct st as [s w n]. unfold GetHyp, getattr, mbind, M_bind. cbn [self].
  assert (Hv : ∀ v : value,
    ∃ w', (let (r, st') :=
             expect fetcher_of AttributeError "has no attribute 'GetHyp'" v
               (MkState s w n) in
           match r with
           | Ret f => call (Fetcher_GetHyp f name) st'
           | Raise e => (Raise e, st')
           end).2 = MkState s w' n).
  { intros v. destruct v; try (by eexists).
    unfold expect, mret, M_ret, call. simpl.
    destruct (Fetcher_GetHyp f name w) as [r w']. by exists w'. }
  destruct (s hyp_fetcher) as [v|]; [apply Hv|].
  destruct (class_attr hyp_fetcher) as [v|]; [apply Hv|]. by eexists.
Qed.

Lemma GetHyp_self (name : string) (st : State) :
  self (GetHyp name st).2 = self st
  ∧ next_oid (GetHyp name st).2 = next_oid st.
Proof. destruct (GetHyp_state name st) as [w ->]. done. Qed.

Lemma getattr_self (a : attr) (st st' : State) :
  self st' = self st → (getattr a st').1 = (getattr a st).1.
Proof.
  intros H. unfold getattr. rewrite H.
  by repeat case_match.
Qed.

Lemma returns_bind {A B} (m : M A) (k : A → M B) (st : State)
    (Q : B → State → Prop) :
  returns_with m st (λ a st1, returns_with (k a) st1 Q) →
  returns_with (m ≫= k) st Q.
Proof.
  intros Hm b st' Hrun. unfold mbind, M_bind in Hrun.
  destruct (m st) as [[a|e] st1] eqn:Hmst; [|done].
  by apply (Hm a st1).
Qed.

Lemma returns_GetHyp (name : string) (st : State) (Q : pyval → State → Prop) :
  (∀ v st1, self st1 = self st → next_oid st1 = next_oid st → Q v st1) →
  returns_with (GetHyp name) st Q.
Proof.
  intros HQ v st1 Hrun. destruct (GetHyp_self name st) as [H1 H2].
  rewrite Hrun in H1, H2. by apply HQ.
Qed.

Lemma returns_getattr (a : attr) (st : State) (Q : value → State → Prop) :
  (∀ v, (getattr a st).1 = Ret v → Q v st) →
  returns_with (getattr a) st Q.
Proof.
  intros HQ v st1 Hrun. pose proof (getattr_state a st) as Hst.
  rewrite Hrun in Hst. simpl in Hst. subst st1. apply HQ. by rewrite Hrun.
Qed.

(** A completed [CreateDataLoader] stores, under the loader attribute, a
    new loader built by the [DataLoader] constructor from the dataset that
    the dataset attribute holds. *)
Lemma CreateDataLoader_run
    (dataset_attr : attr) (shuffle_hyp : string) (loader_attr : attr)
    (st : State) :
  returns_with (CreateDataLoader dataset_attr shuffle_hyp loader_attr) st
    (λ _ st',
       ∃ (d : obj CustomDataset) (o : obj DataLoader),
         (getattr dataset_attr st).1 = Ret (VDataset d)
         ∧ self st' loader_attr = Some (VDataLoader o)
         ∧ oid o = next_oid st
         ∧ ∃ batch_size shuffle num_workers pin_memory drop_last w w',
             DataLoader_new d batch_size shuffle num_workers pin_memory
                            drop_last w
             = (Ret (val o), w')).
Proof.
  unfold CreateDataLoader.
  apply returns_bind, returns_getattr. intros v Hv.
  apply returns_bind, returns_GetHyp. intros bs s1 Hs1 Ho1.
  apply returns_bind, returns_GetHyp. intros sh s2 Hs2 Ho2.
  apply returns_bind, returns_GetHyp. intros nw s3 Hs3 Ho3.
  apply returns_bind, returns_GetHyp. intros pm s4 Hs4 Ho4.
  apply returns_bind, returns_GetHyp. intros dl s5 Hs5 Ho5.
  apply returns_bind. intros d s6 Hd.
  unfold expect in Hd. destruct v; try done. simpl in Hd.
  injection Hd as <- <-.
  apply returns_bind. intros loader s7 Hl. unfold call in Hl.
  destruct (DataLoader_new d0 bs sh nw pm dl (world s5)) as [r w'] eqn:Hnew.
  injection Hl as -> <-.
  apply returns_bind. intros id s8 Hid. injection Hid as <- <-.
  intros u s9 [= _ <-].
  exists d0, (Obj (next_oid s5) loader). cbn [self oid val].
  split; [done|]. split.
  { by rewrite decide_True. }
  split; [congruence|]. by eexists _, _, _, _, _, _, _.
Qed.

Lemma run_pair {A} (m : M A) (st : State) (a : A) :
  (m st).1 = Ret a → m st = (Ret a, (m st).2).
Proof. destruct (m st) as [r s]. simpl. by intros ->. Qed.

Lemma run_pair_raise {A} (m : M A) (st : State) (e : exn) :
  (m st).1 = Raise e → m st = (Raise e, (m st).2).
Proof. destruct (m st) as [r s]. simpl. by intros ->. Qed.

Lemma getattr_same (a : attr) (st st' : State) :
  self st' a = self st a → (getattr a st').1 = (getattr a st).1.
Proof. intros H. unfold getattr. rewrite H. by repeat case_match. Qed.

Lemma Train_after (rest : M unit) (st s : State) :
  Train_body st = rest s →
  frame (λ a, a = train_dataloader) rest →
  self (Train st).2 train_dataloader = self s train_dataloader.
Proof.
  intros Hbody Hrest. unfold Train.
  rewrite (try_except_body _ rest store_error st s Hbody).
  apply (frame_try_except (λ a, a = train_dataloader) rest store_error);
    [done| |done].
  intros e. apply frame_store_error; by intros ?.
Qed.

Lemma Train_after_val (rest : M unit) (st s : State) :
  Train_body st = rest s →
  frame (λ a, a = val_dataloader) rest →
  self (Train st).2 val_dataloader = self s val_dataloader.
Proof.
  intros Hbody Hrest. unfold Train.
  rewrite (try_except_body _ rest store_error st s Hbody).
  apply (frame_try_except (λ a, a = val_dataloader) rest store_error);
    [done| |done].
  intros e. apply frame_store_error; by intros ?.
Qed.

Lemma Train_body_disabled (st : State) (v : pyval) :
  (GetHyp "shuffle_each_epoch" st).1 = Ret v → truthy v = false →
  Train_body st = Train_epoch (GetHyp "shuffle_each_epoch" st).2.
Proof.
  intros Hv Hf. apply run_pair in Hv. unfold Train_body, Train_reshuffle.
  rewrite bind_assoc. rewrite (bind_ret _ _ _ _ _ Hv). rewrite Hf.
  reflexivity.
Qed.

Lemma Train_body_enabled (st : State) (v : pyval) :
  (GetHyp "shuffle_each_epoch" st).1 = Ret v → truthy v = true →
  Train_body st
  = (call_if_hyp "shuffle_train" CreateTrainDataLoader;;
     call_if_hyp "shuffle_val" CreateValDataLoader;;
     Train_epoch) (GetHyp "shuffle_each_epoch" st).2.
Proof.
  intros Hv Ht. apply run_pair in Hv. unfold Train_body, Train_reshuffle.
  rewrite bind_assoc. rewrite (bind_ret _ _ _ _ _ Hv). rewrite Ht.
  by rewrite bind_assoc.
Qed.

Lemma call_if_hyp_run (hyp : string) (create : M unit) (st : State) (t : pyval) :
  (GetHyp hyp st).1 = Ret t →
  call_if_hyp hyp create st
  = if truthy t then create (GetHyp hyp st).2
    else (Ret (), (GetHyp hyp st).2).
Proof.
  intros Ht. apply run_pair in Ht. unfold call_if_hyp.
  rewrite (bind_ret _ _ _ _ _ Ht). by destruct (truthy t).
Qed.

Lemma frame_epoch_tail (keep : attr → Prop) :
  ¬ keep val_dataloader → ¬ keep required_training_data →
  frame keep (call_if_hyp "shuffle_val" CreateValDataLoader;; Train_epoch).
Proof.
  intros H1 H2. apply frame_bind.
  - by apply frame_call_if_hyp, frame_CreateDataLoader.
  - intros _. by apply frame_Train_epoch.
Qed.

(** C9, as the code has it. [Train] never builds a dataset or a vocabulary:
    it leaves every attribute as it found it except the two data loaders,
    the recorded losses and the two error fields; so the datasets with
    their vocabularies, and the bindings of the model, the optimizer, the
    scaler, the criterion and the scheduler, are the objects of the epoch
    before. With the shuffle-each-epoch option off, the two loaders stay as
    well. With it on, the training loader is replaced exactly when
    [shuffle_train] is set, by a loader newly built from the dataset that
    [train_dataset] holds, and is kept otherwise; likewise the validation
    loader with [shuffle_val] and [val_dataset]. *)
Theorem Train_rebuilds_only_selected_loaders (st : State) :
  let st' := (Train st).2 in
  let each := GetHyp "shuffle_each_epoch" st in
  let pick_train := GetHyp "shuffle_train" each.2 in
  let after_train :=
    call_if_hyp "shuffle_train" CreateTrainDataLoader each.2 in
  let pick_val := GetHyp "shuffle_val" after_train.2 in
  let replaced (dataset_attr loader_attr : attr) :=
    rebuilt_by loader_of loader_attr st st'
    ∧ ∃ (d : obj CustomDataset) (o : obj DataLoader),
        (getattr dataset_attr st).1 = Ret (VDataset d)
        ∧ self st' loader_attr = Some (VDataLoader o)
        ∧ ∃ batch_size shuffle num_workers pin_memory drop_last w w',
            DataLoader_new d batch_size shuffle num_workers pin_memory
                           drop_last w
            = (Ret (val o), w') in
  (∀ a, a ≠ train_dataloader → a ≠ val_dataloader →
        a ≠ required_training_data → a ≠ error → a ≠ exception →
        self st' a = self st a)
  ∧ (∀ v, each.1 = Ret v → truthy v = false →
       self st' train_dataloader = self st train_dataloader
       ∧ self st' val_dataloader = self st val_dataloader)
  ∧ (∀ v t, each.1 = Ret v → truthy v = true → pick_train.1 = Ret t →
       if truthy t
       then (CreateTrainDataLoader pick_train.2).1 = Ret () →
            replaced train_dataset train_dataloader
       else self st' train_dataloader = self st train_dataloader)
  ∧ (∀ v t, each.1 = Ret v → truthy v = true → after_train.1 = Ret () →
       pick_val.1 = Ret t →
       if truthy t
       then (CreateValDataLoader pick_val.2).1 = Ret () →
            replaced val_dataset val_dataloader
       else self st' val_dataloader = self st val_dataloader).
Proof.
  intros st' each pick_train after_train pick_val replaced.
  destruct (GetHyp_self "shuffle_each_epoch" st) as [Hs1 Ho1].
  fold each in Hs1, Ho1.
  split_and!.
  - intros a H1 H2 H3 H4 H5.
    apply (frame_Train (λ b, b ≠ train_dataloader ∧ b ≠ val_dataloader
                             ∧ b ≠ required_training_data ∧ b ≠ error
                             ∧ b ≠ exception)); tauto.
  - intros v Hv Hf.
    pose proof (Train_body_disabled st v Hv Hf) as Hbody. fold each in Hbody.
    split.
    + unfold st'. rewrite (Train_after Train_epoch st each.2 Hbody).
      * by rewrite Hs1.
      * apply frame_Train_epoch. by intros ?.
    + unfold st'. rewrite (Train_after_val Train_epoch st each.2 Hbody).
      * by rewrite Hs1.
      * apply frame_Train_epoch. by intros ?.
  - intros v t Hv Ht Hpick.
    pose proof (Train_body_enabled st v Hv Ht) as Hbody. fold each in Hbody.
    destruct (GetHyp_self "shuffle_train" each.2) as [Hs2 Ho2].
    fold pick_train in Hs2, Ho2.
    pose proof (call_if_hyp_run "shuffle_train" CreateTrainDataLoader
                  each.2 t Hpick) as Hrun.
    fold pick_train in Hrun.
    destruct (truthy t).
    + intros Hcreate. apply run_pair in Hcreate.
      destruct (CreateDataLoader_run train_dataset "shuffle_train"
                  train_dataloader pick_train.2 () _ Hcreate)
        as (d & o & Hd & Ho & Hoid & Hnew).
      rewrite Hcreate in Hrun.
      rewrite (bind_ret _ _ _ _ _ Hrun) in Hbody.
      assert (Hkeep : self st' train_dataloader = Some (VDataLoader o)).
      { unfold st'. rewrite (Train_after _ st _ Hbody); [done|].
        apply frame_epoch_tail; by intros ?. }
      split.
      * exists o. rewrite Hkeep. split; [done|]. lia.
      * exists d, o. split_and!; [|done|done].
        rewrite <-Hd. symmetry. apply getattr_same. by rewrite Hs2, Hs1.
    + rewrite (bind_ret _ _ _ _ _ Hrun) in Hbody.
      unfold st'. rewrite (Train_after _ st _ Hbody).
      * by rewrite Hs2, Hs1.
      * apply frame_epoch_tail; by intros ?.
  - intros v t Hv Ht Hafter Hpick.
    pose proof (Train_body_enabled st v Hv Ht) as Hbody. fold each in Hbody.
    apply run_pair in Hafter. fold after_train in Hafter.
    rewrite (bind_ret _ _ _ _ _ Hafter) in Hbody.
    destruct (frame_call_if_hyp (λ a, a ≠ train_dataloader) "shuffle_train"
                CreateTrainDataLoader
                (frame_CreateDataLoader (λ a, a ≠ train_dataloader)
                   train_dataset "shuffle_train" train_dataloader
                   (λ H, H eq_refl)) each.2)
      as [Hs2 Ho2].
    fold after_train in Hs2, Ho2.
    destruct (GetHyp_self "shuffle_val" after_train.2) as [Hs3 Ho3].
    fold pick_val in Hs3, Ho3.
    pose proof (call_if_hyp_run "shuffle_val" CreateValDataLoader
                  after_train.2 t Hpick) as Hrun.
    fold pick_val in Hrun.
    destruct (truthy t).
    + intros Hcreate. apply run_pair in Hcreate.
      destruct (CreateDataLoader_run val_dataset "shuffle_val"
                  val_dataloader pick_val.2 () _ Hcreate)
        as (d & o & Hd & Ho & Hoid & Hnew).
      rewrite Hcreate in Hrun.
      rewrite (bind_ret _ _ _ _ _ Hrun) in Hbody.
      assert (Hkeep : self st' val_dataloader = Some (VDataLoader o)).
      { unfold st'. rewrite (Train_after_val _ st _ Hbody); [done|].
        apply frame_Train_epoch. by intros ?. }
      split.
      * exists o. rewrite Hkeep. split; [done|]. lia.
      * exists d, o. split_and!; [|done|done].
        rewrite <-Hd. symmetry. apply getattr_same.
        rewrite Hs3, Hs2 by done. by rewrite Hs1.
    + rewrite (bind_ret _ _ _ _ _ Hrun) in Hbody.
      unfold st'. rewrite (Train_after_val _ st _ Hbody).
      * rewrite Hs3, Hs2 by done. by rewrite Hs1.
      * apply frame_Train_epoch. by intros ?.
Qed.

End Frames.

(** ** The properties on the concrete setting *)

Section Concrete.
Local Existing Instance Demo.framework.
Local Existing Instance Demo.template.

Lemma demo_sample_contract : sample_contract.
Proof.
  intros n k w Hk. simpl. unfold Demo.sample. split_and!.
  - rewrite reverse_Permutation. apply NoDup_seq.
  - by rewrite length_reverse, length_seq.
  - intros i Hi. apply elem_of_reverse, elem_of_seq in Hi. lia.
Defined.

Lemma demo_fetcher_contract : fetcher_contract.
Proof. intros f name w w' e H. discriminate H. Defined.



Lemma build_vocab_numbers_characters_witness :
  is_Some (build_vocab Demo.short_records !! "g"%char)
  ∧ ∃ c, build_vocab Demo.short_records !! c = Some 12.
Proof.
  destruct (build_vocab_numbers_characters Demo.short_records)
    as (Hdom & _ & Hall & _).
  - intros s. reflexivity.
  - split.
    + apply Hdom. exists ("ok", "general", 0). split.
      * apply list_elem_of_here.
      * right. apply list_elem_of_here.
    + apply Hall.
      assert (Hsize : Z.of_nat (size (distinct_chars Demo.short_records)) = 12)
        by (vm_compute; reflexivity).
      rewrite Hsize. lia.
Defined.



Lemma Model_construction_raises_witness :
  ∃ e, new_Model Demo.hyps Demo.files 0 = (Raise e, Demo.files)
       ∧ exn_class_of e = AttributeError.
Proof.
  apply (Model_construction_raises Demo.hyps Demo.files 0).
  intros f. discriminate.
Defined.

Lemma Initialize_always_stores_error_witness :
  ∃ e st',
    Initialize Demo.constructed = (Ret (), st')
    ∧ self st' error = Some (VPy (PStr (exn_msg e)))
    ∧ self st' train_size = None.
Proof.
  destruct (Initialize_always_stores_error Demo.constructed)
    as (_ & e & st' & Hrun & Herr & _ & Hframe & _).
  - exact demo_fetcher_contract.
  - exists e, st'. split; [exact Hrun|]. split; [exact Herr|].
    rewrite Hframe by discriminate. reflexivity.
Defined.

Lemma failures_are_stored_witness :
  ∃ st', Train Demo.constructed = (Ret (), st')
         ∧ self st' error
           = Some (VPy (PStr "'Model' object has no attribute 'train_dataset'")).
Proof.
  destruct (failures_are_stored Demo.constructed (VPy PNone) (VPy PNone))
    as (_ & [Htrain _] & _).
  destruct (Htrain
              (Exn AttributeError
                   "'Model' object has no attribute 'train_dataset'")
              (Train_body Demo.constructed).2)
    as (st' & Hrun & Herr & _).
  - apply run_pair_raise. vm_compute. reflexivity.
  - reflexivity.
  - exists st'. split; [exact Hrun|exact Herr].
Defined.

Lemma Train_rebuilds_only_selected_loaders_witness :
  self (Train Demo.ready).2 train_dataset = self Demo.ready train_dataset
  ∧ rebuilt_by loader_of train_dataloader Demo.ready (Train Demo.ready).2.
Proof.
  destruct (Train_rebuilds_only_selected_loaders Demo.ready)
    as (Hframe & _ & Htrain & _).
  split.
  - apply Hframe; discriminate.
  - refine (proj1 (Htrain (PBool true) (PBool true) _ _ _ _));
      reflexivity.
Defined.

(** C9, as the spec has it, fails: on a model that is set up, with all
    three shuffle options on, [Train] completes without an error, and the
    datasets it leaves are the objects built before the call, with the
    vocabularies they had. *)
Lemma Train_keeps_datasets_counterexample :
  (GetHyp "shuffle_each_epoch" Demo.ready).1 = Ret (PBool true)
  ∧ (Train Demo.ready).1 = Ret ()
  ∧ self (Train Demo.ready).2 error = Some (VPy PNone)
  ∧ self (Train Demo.ready).2 train_dataset = Some (VDataset Demo.train_ds)
  ∧ self (Train Demo.ready).2 val_dataset = Some (VDataset Demo.val_ds)
  ∧ ¬ rebuilt_by dataset_of train_dataset Demo.ready (Train Demo.ready).2
  ∧ ¬ rebuilt_by dataset_of val_dataset Demo.ready (Train Demo.ready).2.
Proof.
  assert (H1 : self (Train Demo.ready).2 train_dataset
               = Some (VDataset Demo.train_ds)) by reflexivity.
  assert (H2 : self (Train Demo.ready).2 val_dataset
               = Some (VDataset Demo.val_ds)) by reflexivity.
  split; [reflexivity|]. split; [reflexivity|]. split; [reflexivity|].
  split; [exact H1|]. split; [exact H2|]. split.
  - intros (o & Ho & Hle). rewrite H1 in Ho. injection Ho as <-.
    change (4 ≤ 0)%nat in Hle. lia.
  - intros (o & Ho & Hle). rewrite H2 in Ho. injection Ho as <-.
    change (4 ≤ 1)%nat in Hle. lia.
Qed.

(** C1 on the code: with the ten record files and a ratio of 0.8, the
    construction of the model raises; on the object that the assignments of
    [__init__] would have produced, [Initialize] stores the [TypeError] of
    the call to [load_data] and assigns neither [train_size] nor
    [val_size], and the [Train] call that follows stores an error as well.
    The helpers do what the scenario expects when called as declared:
    [load_data] yields the ten records and [SplitDataset] sizes 8 and 2. *)
Lemma end_to_end_scenario_fails :
  (new_Model Demo.hyps Demo.files 0).1
  = Raise (Exn AttributeError "'Model' object has no attribute 'hyp_fetcher'")
  ∧ (Initialize Demo.constructed).1 = Ret ()
  ∧ self (Initialize Demo.constructed).2 error
    = Some (VPy (PStr
        "Model.load_data() takes 1 positional argument but 2 were given"))
  ∧ self (Initialize Demo.constructed).2 train_size = None
  ∧ self (Initialize Demo.constructed).2 val_size = None
  ∧ (Train (Initialize Demo.constructed).2).1 = Ret ()
  ∧ self (Train (Initialize Demo.constructed).2).2 error
    = Some (VPy (PStr "'Model' object has no attribute 'train_dataset'"))
  ∧ (load_data (ArgValue (VPy (PStr "data"))) Demo.constructed).1
    = Ret Demo.records
  ∧ (∃ train_ds val_ds,
       (SplitDataset Demo.records (PFloat (8 # 10))
                     (GetMaxLength Demo.records) Demo.constructed).1
       = Ret (train_ds, val_ds, 8, 2)
       ∧ __len__ (val train_ds) = 8 ∧ __len__ (val val_ds) = 2).
Proof.
  split; [reflexivity|]. split; [reflexivity|]. split; [reflexivity|].
  split; [reflexivity|]. split; [reflexivity|]. split; [reflexivity|].
  split; [reflexivity|]. split; [vm_compute; reflexivity|].
  eexists _, _. split; [reflexivity|]. split; reflexivity.
Qed.

End Concrete.

(** * Further properties of the code *)

(** ** Items and encodings *)

Section DatasetFurther.
Context {F : Framework}.


(** X2. [encode] on its own never drops a character: its result holds the
    ids of all the characters of the text, followed by zeros up to the
    width when the text is shorter; its length is the greater of the length
    of the text and the width. Only the slice in [__getitem__] truncates. *)
Theorem encode_keeps_every_character (ds : CustomDataset) (text : string) :
  py_len (encode ds text)
  = Z.max (Z.of_nat (String.length text)) (max_length ds)
  ∧ take (String.length text) (encode ds text)
    = (λ char, default 0 (vocab ds !! char)) <$> chars text.
Proof.
  unfold encode, py_len, py_list_mul. split.
  - rewrite length_app, length_replicate, length_fmap, length_chars. lia.
  - rewrite take_app_le by (by rewrite length_fmap, length_chars).
    apply take_ge. by rewrite length_fmap, length_chars.
Qed.

Lemma dict_comp_size {K V} `{Countable K} (kvs : list (K * V)) :
  NoDup (kvs.*1) → size (dict_comp kvs) = length kvs.
Proof.
  induction kvs as [|[k v] kvs IH] using rev_ind; intros Hnd.
  - unfold dict_comp. simpl. apply map_size_empty.
  - rewrite fmap_app in Hnd. apply NoDup_app in Hnd as (Hnd & Hfresh & _).
    rewrite dict_comp_snoc, length_app. simpl.
    rewrite map_size_insert_None, (IH Hnd); [lia|].
    destruct (dict_comp kvs !! k) as [v'|] eqn:Hk; [|done].
    apply (dict_comp_lookup kvs k v' Hnd) in Hk.
    exfalso. apply (Hfresh k).
    + apply list_elem_of_fmap. by exists (k, v').
    + apply list_elem_of_singleton. done.
Qed.

Lemma build_vocab_size (data : list record) :
  (∀ s, set_iter s ≡ₚ elements s) →
  size (build_vocab data) = size (distinct_chars data).
Proof.
  intros Hiter. unfold build_vocab.
  rewrite vocab_set_foldl, (left_id_L ∅ (∪)).
  rewrite dict_comp_size.
  - by rewrite length_imap, Hiter.
  - rewrite fmap_imap.
    rewrite (imap_ext _ (const (λ x, x))) by done.
    rewrite imap_const, list_fmap_id, Hiter. apply NoDup_elements.
Qed.

Lemma build_vocab_id_range (data : list record) (c : ascii) (id : Z) :
  (∀ s, set_iter s ≡ₚ elements s) →
  build_vocab data !! c = Some id →
  1 ≤ id ≤ Z.of_nat (size (build_vocab data)).
Proof.
  intros Hiter Hid. rewrite (build_vocab_size data Hiter).
  apply build_vocab_lookup in Hid as (i & Hi & ->); [|done].
  apply lookup_lt_Some in Hi. rewrite Hiter in Hi.
  change (length (elements (distinct_chars data)))
    with (size (distinct_chars data)) in Hi. lia.
Qed.

Lemma encode_ids_range (data : list record) (width : Z) (text : string) :
  (∀ s, set_iter s ≡ₚ elements s) →
  Forall (λ id, 0 ≤ id ≤ Z.of_nat (size (build_vocab data)))
         (encode (CustomDataset__init__ data width) text).
Proof.
  intros Hiter. unfold encode, CustomDataset__init__. simpl.
  apply Forall_app. split.
  - apply Forall_fmap, Forall_forall. intros c _. simpl.
    destruct (build_vocab data !! c) as [id|] eqn:Hc; simpl.
    + pose proof (build_vocab_id_range data c id Hiter Hc). lia.
    + lia.
  - unfold py_list_mul. apply Forall_replicate. lia.
Qed.

(** X3. Provided iterating a set lists its elements once each: in a dataset
    built by the constructor, every id of every retrieved sample lies
    between 0 and the size of the vocabulary, hence below the
    [len(vocab) + 1] that [Initialize] takes as the number of embedding
    rows for the training dataset. *)
Theorem item_ids_within_vocabulary
    (records : list record) (width idx : Z) (tensor : list Z) (label : Z) :
  (∀ s, set_iter s ≡ₚ elements s) →
  __getitem__ (CustomDataset__init__ records width) idx = Ret (tensor, label) →
  Forall (λ id, 0 ≤ id < Z.of_nat (size (build_vocab records)) + 1) tensor.
Proof.
  intros Hiter Hget. unfold __getitem__ in Hget.
  destruct (py_index _ idx) as [[[m c] l]|e]; [|done].
  cbn in Hget. injection Hget as <- <-.
  assert (Hsl : ∀ text,
    Forall (λ id, 0 ≤ id < Z.of_nat (size (build_vocab records)) + 1)
      (py_slice_to (encode (CustomDataset__init__ records width) text) width)).
  { intros text. unfold py_slice_to.
    destruct (0 <=? width); apply Forall_take;
      (eapply Forall_impl; [apply (encode_ids_range records width text Hiter)|]);
      intros id ?; simpl in *; lia. }
  apply Forall_app. split; apply Hsl.
Qed.

Lemma app_zeros_inj (l1 l2 : list Z) (a b : nat) :
  Forall (λ id, id ≠ 0) l1 → Forall (λ id, id ≠ 0) l2 →
  l1 ++ replicate a 0 = l2 ++ replicate b 0 → l1 = l2.
Proof.
  intros H1. revert l2. induction H1 as [|x l1 Hx H1 IH]; intros l2 H2 Heq.
  - destruct H2 as [|y l2 Hy H2]; [done|].
    simpl in Heq. destruct a; simpl in Heq; [done|]. injection Heq as Hxy _.
    congruence.
  - destruct H2 as [|y l2 Hy H2].
    + simpl in Heq. destruct b; simpl in Heq; [done|]. injection Heq as Hxy _.
      congruence.
    + simpl in Heq. injection Heq as -> Heq. f_equal. by apply IH.
Qed.

(** X4. Provided iterating a set lists its elements once each: over texts
    whose characters all occur in the records of the dataset, [encode] loses
    nothing, two such texts with the same encoding being the same text. *)
Theorem encode_injective
    (records : list record) (width : Z) (t1 t2 : string) :
  (∀ s, set_iter s ≡ₚ elements s) →
  (∀ c, c ∈ chars t1 → c ∈ distinct_chars records) →
  (∀ c, c ∈ chars t2 → c ∈ distinct_chars records) →
  encode (CustomDataset__init__ records width) t1
  = encode (CustomDataset__init__ records width) t2 →
  t1 = t2.
Proof.
  intros Hiter Hin1 Hin2 Heq. unfold encode, CustomDataset__init__ in Heq.
  simpl in Heq. unfold py_list_mul in Heq.
  assert (Hid : ∀ c, c ∈ distinct_chars records →
                ∃ id, build_vocab records !! c = Some id ∧ id ≠ 0).
  { intros c Hc. apply elem_of_elements in Hc. rewrite <-Hiter in Hc.
    apply list_elem_of_lookup in Hc as [i Hi].
    exists (Z.of_nat i + 1). split; [|lia].
    apply build_vocab_lookup; eauto. }
  assert (Hnz : ∀ t, (∀ c, c ∈ chars t → c ∈ distinct_chars records) →
    Forall (λ id, id ≠ 0)
      ((λ char, default 0 (build_vocab records !! char)) <$> chars t)).
  { intros t Ht. apply Forall_fmap, Forall_forall. intros c Hc. simpl.
    destruct (Hid c (Ht c Hc)) as (id & -> & Hne). done. }
  apply app_zeros_inj in Heq; [|by apply Hnz..].
  assert (Hchars : chars t1 = chars t2).
  { revert Heq Hin1 Hin2. generalize (chars t1) (chars t2).
    induction l as [|c1 l1 IH]; intros [|c2 l2] Heq Hin1 Hin2; try done.
    simpl in Heq. injection Heq as Hc Heq. f_equal.
    - destruct (Hid c1) as (id1 & H1 & _); [apply Hin1, list_elem_of_here|].
      destruct (Hid c2) as (id2 & H2 & _); [apply Hin2, list_elem_of_here|].
      rewrite H1, H2 in Hc. simpl in Hc. subst id2.
      apply build_vocab_lookup in H1 as (i1 & Hi1 & Hx); [|done].
      apply build_vocab_lookup in H2 as (i2 & Hi2 & ->); [|done].
      assert (i1 = i2) as -> by lia. congruence.
    - apply IH; [done| |].
      + intros c Hc'. apply Hin1. by apply list_elem_of_further.
      + intros c Hc'. apply Hin2. by apply list_elem_of_further. }
  rewrite <-(string_of_list_ascii_of_string t1).
  rewrite <-(string_of_list_ascii_of_string t2).
  unfold chars in Hchars. by rewrite Hchars.
Qed.


Lemma GetMaxLength_app (d1 d2 : list record) :
  GetMaxLength (d1 ++ d2) = Z.max (GetMaxLength d1) (GetMaxLength d2).
Proof.
  induction d1 as [|[[m c] l] d1 IH].
  - simpl. pose proof (GetMaxLength_nonneg d2).
    change (GetMaxLength []) with 0. lia.
  - rewrite <-app_comm_cons, !GetMaxLength_cons, IH. lia.
Qed.

(** X6. The width does not depend on the order of the records, which is
    the order in which the folder happened to be listed. *)
Theorem GetMaxLength_order_independent (d1 d2 : list record) :
  d1 ≡ₚ d2 → GetMaxLength d1 = GetMaxLength d2.
Proof.
  induction 1 as [|[[m c] l] d1 d2 _ IH|[[m c] l] [[m' c'] l'] d|d1 d2 d3 _ IH1 _ IH2].
  - done.
  - by rewrite !GetMaxLength_cons, IH.
  - rewrite !GetMaxLength_cons. lia.
  - congruence.
Qed.

End DatasetFurther.

(** ** Loading the records *)

Section LoadProperties.
Context {F : Framework} {T : Template}.

Local Abbreviation load_step folder :=
  (λ (data : list record) (filename : string),
     if endswith filename ".txt" then
       lines ← call (open_readlines folder filename);
       line0 ← lift_res (py_index lines 0);
       let message := str_strip line0 in
       line1 ← lift_res (py_index lines 1);
       let channel := str_strip line1 in
       line2 ← lift_res (py_index lines 2);
       output ← lift_res (int_of_str (str_strip line2));
       mret (data ++ [(message, channel, output)])
     else mret data).

Lemma call_run {A} (f : eff World A) (st : State) (r : res A) (w : World) :
  f (world st) = (r, w) → call f st = (r, MkState (self st) w (next_oid st)).
Proof. intros H. unfold call. by rewrite H. Qed.

Lemma load_step_file (folder : pyval) (acc : list record) (name : string)
    (st : State) (lines : list string) (w1 : World) (l0 l1 l2 : string) (z : Z) :
  endswith name ".txt" = true →
  open_readlines folder name (world st) = (Ret lines, w1) →
  lines !! 0%nat = Some l0 → lines !! 1%nat = Some l1 →
  lines !! 2%nat = Some l2 →
  int_of_str (str_strip l2) = Ret z →
  load_step folder acc name st
  = (Ret (acc ++ [(str_strip l0, str_strip l1, z)]),
     MkState (self st) w1 (next_oid st)).
Proof.
  intros Hend Hopen H0 H1 H2 Hz. cbv beta. rewrite Hend.
  rewrite (bind_ret _ _ _ _ _ (call_run _ st _ _ Hopen)).
  rewrite (py_index_nat lines 0 l0 H0 : py_index lines 0 = Ret l0).
  erewrite bind_ret; [|apply lift_res_ret].
  rewrite (py_index_nat lines 1 l1 H1 : py_index lines 1 = Ret l1).
  erewrite bind_ret; [|apply lift_res_ret].
  rewrite (py_index_nat lines 2 l2 H2 : py_index lines 2 = Ret l2).
  erewrite bind_ret; [|apply lift_res_ret].
  rewrite Hz. reflexivity.
Qed.

Lemma load_fold (folder : pyval) (pre rest : list string) (w w' : World)
    (rs acc : list record) (st : State) :
  loads folder pre w rs w' → world st = w →
  foldM (load_step folder) acc (pre ++ rest) st
  = foldM (load_step folder) (acc ++ rs) rest
          (MkState (self st) w' (next_oid st)).
Proof.
  intros Hloads. revert acc st.
  induction Hloads as [w|name names w w' rs Hend _ IH
                      |name names w w1 w' lines l0 l1 l2 z rs
                         Hend Hopen H0 H1 H2 Hz _ IH];
    intros acc st Hw.
  - destruct st as [s w0 n]. simpl in *. subst. by rewrite app_nil_r.
  - rewrite <-app_comm_cons. cbn [foldM].
    erewrite bind_ret; [by apply IH|].
    cbv beta. rewrite Hend. reflexivity.
  - rewrite <-app_comm_cons. cbn [foldM]. subst w.
    erewrite bind_ret; [|by eapply load_step_file].
    rewrite (IH _ (MkState (self st) w1 (next_oid st)) eq_refl).
    by rewrite <-app_assoc.
Qed.

(** X7. When the folder is listed and every file with the [.txt] ending
    holds three lines of which the third reads as an integer, [load_data]
    returns one record per such file, in the order of the listing, with the
    stripped lines as its fields; the other files are not opened. *)
Theorem load_data_reads_every_record_file
    (folder : pyval) (st : State) (names : list string) (w0 w' : World)
    (rs : list record) :
  os_listdir folder (world st) = (Ret names, w0) →
  loads folder names w0 rs w' →
  load_data (ArgValue (VPy folder)) st
  = (Ret rs, MkState (self st) w' (next_oid st))
  ∧ length rs = length (filter (λ name, endswith name ".txt" = true) names).
Proof.
  intros Hlist Hloads. split.
  - unfold load_data.
    erewrite bind_ret; [|reflexivity].
    rewrite (bind_ret _ _ _ _ _ (call_run _ st _ _ Hlist)).
    rewrite <-(app_nil_r names).
    etrans; [exact (load_fold folder names [] w0 w' rs []
                      (MkState (self st) w0 (next_oid st)) Hloads eq_refl)|].
    reflexivity.
  - clear Hlist. induction Hloads as [|name names w w1 rs0 Hend _ IH
                                      |name names w w1 w2 lines l0 l1 l2 z rs0
                                         Hend _ _ _ _ _ _ IH].
    + done.
    + rewrite filter_cons_False by (by rewrite Hend). done.
    + rewrite filter_cons_True by done. simpl. by rewrite IH.
Qed.

(** X8. One bad file aborts the whole load: after the files before it have
    been read, a file with the [.txt] ending that cannot be opened, holds
    fewer than three lines, or whose third line does not read as an integer
    makes [load_data] raise (the error of [open], [IndexError], the error
    of [int]); the records read so far are not returned and the files after
    it are not opened. *)
Theorem load_data_stops_at_bad_file
    (folder : pyval) (st : State) (pre post : list string) (name : string)
    (w0 w1 w2 : World) (rs : list record) (e : exn) :
  os_listdir folder (world st) = (Ret (pre ++ name :: post), w0) →
  loads folder pre w0 rs w1 →
  endswith name ".txt" = true →
  (open_readlines folder name w1 = (Raise e, w2)
   ∨ ∃ lines, open_readlines folder name w1 = (Ret lines, w2)
       ∧ (((length lines < 3)%nat
           ∧ e = Exn IndexError "list index out of range")
          ∨ ∃ l2, lines !! 2%nat = Some l2
                  ∧ int_of_str (str_strip l2) = Raise e)) →
  load_data (ArgValue (VPy folder)) st
  = (Raise e, MkState (self st) w2 (next_oid st)).
Proof.
  intros Hlist Hloads Hend Hbad. unfold load_data.
  erewrite bind_ret; [|reflexivity].
  rewrite (bind_ret _ _ _ _ _ (call_run _ st _ _ Hlist)).
  etrans; [exact (load_fold folder pre (name :: post) w0 w1 rs []
                    (MkState (self st) w0 (next_oid st)) Hloads eq_refl)|].
  cbn [foldM]. erewrite bind_raise; [reflexivity|].
  cbv beta. rewrite Hend.
  destruct Hbad as [Hopen|(lines & Hopen & Hlines)].
  - by rewrite (bind_raise _ _ _ _ _ (call_run _ (MkState _ w1 _) _ _ Hopen)).
  - rewrite (bind_ret _ _ _ _ _ (call_run _ (MkState _ w1 _) _ _ Hopen)).
    destruct Hlines as [[Hshort ->]|(l2 & H2 & Hint)].
    + destruct lines as [|a [|b [|c lines]]]; try done.
      simpl in Hshort. lia.
    + destruct lines as [|a [|b [|c lines]]]; try done.
      injection H2 as ->.
      do 3 (erewrite bind_ret; [|reflexivity]).
      erewrite bind_raise; [reflexivity|].
      unfold lift_res. by rewrite Hint.
Qed.

End LoadProperties.

(** ** Splitting, further *)

Section SplitFurther.
Context {F : Framework} {T : Template}.

Lemma Forall2_lookup_omap (records : list record) (l : list nat)
    (rs : list record) :
  Forall2 (λ i rec, records !! i = Some rec) l rs →
  omap (λ i, records !! i) l = rs.
Proof.
  induction 1 as [|i rec l rs Hi _ IH]; [done|].
  simpl. rewrite Hi. simpl. f_equal. exact IH.
Qed.

Lemma omap_lookup_seq {A} (pre l : list A) :
  omap (λ i, (pre ++ l) !! i) (seq (length pre) (length l)) = l.
Proof.
  revert pre. induction l as [|x l IH]; intros pre; [done|].
  simpl. rewrite list_lookup_middle by done. simpl. f_equal.
  specialize (IH (pre ++ [x])).
  rewrite length_app, <-app_assoc in IH. simpl in IH.
  by rewrite Nat.add_1_r in IH.
Qed.

(** What a call of [SplitDataset] does when the number of training records
    it computes lies between 0 and the number of records. *)
Lemma SplitDataset_run (records : list record) (ratio : pyval) (width : Z)
    (st : State) (k : Z) :
  sample_contract →
  int_of_product ratio (Z.of_nat (length records)) = Ret k →
  0 ≤ k ≤ Z.of_nat (length records) →
  ∃ train_indices train_data val_data w',
    SplitDataset records ratio width st
    = (Ret (Obj (next_oid st) (CustomDataset__init__ train_data width),
            Obj (S (next_oid st)) (CustomDataset__init__ val_data width),
            k, Z.of_nat (length records) - k),
       MkState (self st) w' (S (S (next_oid st))))
    ∧ NoDup train_indices
    ∧ (∀ i, i ∈ train_indices → (i < length records)%nat)
    ∧ Forall2 (λ i rec, records !! i = Some rec) train_indices train_data
    ∧ Forall2 (λ i rec, records !! i = Some rec)
              (val_indices_of (length records) train_indices) val_data.
Proof.
  intros Hsample Hint [Hk0 Hkn]. set (n := length records) in *.
  destruct (random_sample_range n (Z.to_nat k) (world st)) as [tr w'] eqn:Hdraw.
  destruct (Hsample n (Z.to_nat k) (world st)) as (Hnd & Hlen & Hlt); [lia|].
  rewrite Hdraw in Hnd, Hlen, Hlt. simpl in Hnd, Hlen, Hlt.
  destruct (mapM_py_index records tr) as (train_data & Htrain & Htrain2).
  { apply Forall_forall. intros i Hi. by apply Hlt. }
  destruct (mapM_py_index records (val_indices_of n tr))
    as (val_data & Hval & Hval2).
  { apply Forall_forall. intros i Hi. by apply val_indices_spec in Hi as [? _]. }
  exists tr, train_data, val_data, w'. split_and!; try done.
  unfold SplitDataset. fold n.
  erewrite bind_ret; last first.
  { rewrite Hint. apply lift_res_ret. }
  erewrite bind_ret; last first.
  { unfold random_sample.
    destruct (Z.ltb_spec k 0); [lia|].
    destruct (Z.ltb_spec (Z.of_nat n) k); [lia|].
    simpl. unfold call. rewrite Hdraw. reflexivity. }
  erewrite bind_ret; last first.
  { rewrite Htrain. apply lift_res_ret. }
  erewrite bind_ret; last first.
  { simpl. rewrite Hval. apply lift_res_ret. }
  reflexivity.
Qed.

(** X9. Provided a sample holds distinct elements of the population:
    whenever the number of training records computed from the ratio lies
    between 0 and the number of records, [SplitDataset] loses and repeats
    no record, the records of the two datasets together being a
    rearrangement of the records given. The two datasets are distinct new
    objects of the given width, each with the vocabulary of its own records
    only, and no attribute of the model is assigned. *)
Theorem SplitDataset_keeps_every_record
    (records : list record) (ratio : pyval) (width : Z) (st : State) (k : Z) :
  sample_contract →
  int_of_product ratio (Z.of_nat (length records)) = Ret k →
  0 ≤ k ≤ Z.of_nat (length records) →
  ∃ (train_ds val_ds : obj CustomDataset) (st' : State),
    SplitDataset records ratio width st
    = (Ret (train_ds, val_ds, k, Z.of_nat (length records) - k), st')
    ∧ data (val train_ds) ++ data (val val_ds) ≡ₚ records
    ∧ max_length (val train_ds) = width
    ∧ max_length (val val_ds) = width
    ∧ vocab (val train_ds) = build_vocab (data (val train_ds))
    ∧ vocab (val val_ds) = build_vocab (data (val val_ds))
    ∧ oid train_ds ≠ oid val_ds
    ∧ (next_oid st ≤ oid train_ds < next_oid st')%nat
    ∧ (next_oid st ≤ oid val_ds < next_oid st')%nat
    ∧ ∀ a, self st' a = self st a.
Proof.
  intros Hsample Hint Hk.
  destruct (SplitDataset_run records ratio width st k Hsample Hint Hk)
    as (tr & train_data & val_data & w' & Hrun & Hnd & Hlt & Htr & Hva).
  eexists _, _, _. split; [exact Hrun|]. cbn [val oid data max_length vocab
    CustomDataset__init__ next_oid self].
  split_and!; try done; try lia.
  rewrite <-(Forall2_lookup_omap _ _ _ Htr), <-(Forall2_lookup_omap _ _ _ Hva).
  rewrite <-omap_app.
  rewrite (split_indices_permutation (length records) tr Hnd Hlt).
  by rewrite (omap_lookup_seq [] records : omap (λ i, records !! i)
                (seq 0 (length records)) = records).
Qed.

(** X10. When the number of training records computed from the ratio is
    negative or exceeds the number of records (a ratio above 1, for one),
    [SplitDataset] raises the [ValueError] of [random.sample]; it has then
    built no dataset and drawn no sample. *)
Theorem SplitDataset_rejects_bad_ratio
    (records : list record) (ratio : pyval) (width : Z) (st : State) (k : Z) :
  int_of_product ratio (Z.of_nat (length records)) = Ret k →
  k < 0 ∨ Z.of_nat (length records) < k →
  SplitDataset records ratio width st
  = (Raise (Exn ValueError "Sample larger than population or is negative"),
     st).
Proof.
  intros Hint Hk. unfold SplitDataset.
  erewrite bind_ret; last first.
  { rewrite Hint. apply lift_res_ret. }
  erewrite bind_raise; [reflexivity|].
  unfold random_sample.
  destruct (Z.ltb_spec k 0); [done|].
  destruct (Z.ltb_spec (Z.of_nat (length records)) k); [done|]. lia.
Qed.

End SplitFurther.

(** ** What the methods assign, and when *)

Section Assignments.
Context {F : Framework} {T : Template}.

Lemma reads_only_ret {A} (a : A) : reads_only (mret a).
Proof. intros st. simpl. auto. Qed.

Lemma reads_only_raise {A} (c : exn_class) (msg : string) :
  reads_only (raise c msg : M A).
Proof. intros st. simpl. auto. Qed.

Lemma reads_only_lift_res {A} (r : res A) : reads_only (lift_res r).
Proof. intros st. simpl. auto. Qed.

Lemma reads_only_call {A} (f : eff World A) : reads_only (call f).
Proof. intros st. unfold call. destruct (f (world st)). simpl. auto. Qed.

Lemma reads_only_get_world : reads_only get_world.
Proof. intros st. simpl. auto. Qed.

Lemma reads_only_getattr (a : attr) : reads_only (getattr a).
Proof. intros st. rewrite getattr_state. auto. Qed.

Lemma reads_only_expect {A} (proj : value → option A) (c : exn_class)
    (what : string) (v : value) :
  reads_only (expect proj c what v).
Proof.
  unfold expect. destruct (proj v); [apply reads_only_ret|apply reads_only_raise].
Qed.

Lemma reads_only_bind {A B} (m : M A) (k : A → M B) :
  reads_only m → (∀ a, reads_only (k a)) → reads_only (m ≫= k).
Proof.
  intros Hm Hk st. unfold mbind, M_bind.
  destruct (Hm st) as [Hm1 Hm2]. destruct (m st) as [[a|e] st1]; simpl in *.
  - destruct (Hk a st1) as [Hk1 Hk2]. split; [|congruence].
    intros b. by rewrite Hk1, Hm1.
  - auto.
Qed.

Lemma reads_only_foldM {A B} (f : A → B → M A) (a : A) (l : list B) :
  (∀ a x, reads_only (f a x)) → reads_only (foldM f a l).
Proof.
  intros Hf. revert a. induction l as [|x l IH]; intros a; simpl.
  - apply reads_only_ret.
  - apply reads_only_bind; [apply Hf|apply IH].
Qed.

Lemma reads_only_GetHyp (name : string) : reads_only (GetHyp name).
Proof.
  intros st. destruct (GetHyp_self name st) as [H1 H2]. split; [|done].
  intros a. by rewrite H1.
Qed.

Ltac reads_only_step :=
  first
    [ apply reads_only_ret | apply reads_only_raise | apply reads_only_lift_res
    | apply reads_only_call | apply reads_only_get_world
    | apply reads_only_getattr | apply reads_only_expect
    | apply reads_only_GetHyp
    | apply reads_only_bind; [|intros ?]
    | apply reads_only_foldM; intros ? ?
    | match goal with
      | |- reads_only (if ?b then _ else _) => destruct b
      | |- reads_only (match ?x with _ => _ end) => destruct x
      | |- reads_only (let '(_, _) := ?x in _) => destruct x
      end ].

Lemma raise_frame_bind {A B} (m : M A) (k : A → M B) :
  reads_only m → (∀ a, raise_frame (k a)) → raise_frame (m ≫= k).
Proof.
  intros Hm Hk st e st' Hrun. unfold mbind, M_bind in Hrun.
  destruct (Hm st) as [Hm1 Hm2]. destruct (m st) as [[a|e1] st1]; simpl in *.
  - destruct (Hk a st1 e st' Hrun) as [Hk1 Hk2]. split; [|congruence].
    intros b. by rewrite Hk1, Hm1.
  - injection Hrun as <- <-. auto.
Qed.

Lemma raise_frame_reads_only {A} (m : M A) : reads_only m → raise_frame m.
Proof.
  intros Hm st e st' Hrun. destruct (Hm st) as [H1 H2].
  rewrite Hrun in H1, H2. auto.
Qed.

Lemma raise_frame_setattr (a : attr) (v : value) : raise_frame (setattr a v).
Proof. intros st e st' Hrun. discriminate Hrun. Qed.

Lemma raise_frame_CreateDataLoader
    (dataset_attr : attr) (shuffle_hyp : string) (loader_attr : attr) :
  raise_frame (CreateDataLoader dataset_attr shuffle_hyp loader_attr).
Proof.
  unfold CreateDataLoader.
  do 8 (apply raise_frame_bind; [repeat reads_only_step|intros ?]).
  intros st e st' Hrun. discriminate Hrun.
Qed.

(** X11. [CreateTrainDataLoader] and [CreateValDataLoader] do all or
    nothing: the only attribute ever assigned is the loader; when anything
    fails (the dataset is missing, a hyperparameter lookup or the
    [DataLoader] constructor raises) no attribute at all is assigned; and
    when the call returns, the loader attribute holds a new loader built
    from the dataset that the dataset attribute holds. *)
Theorem CreateDataLoader_all_or_nothing
    (dataset_attr : attr) (shuffle_hyp : string) (loader_attr : attr)
    (st : State) :
  let run := CreateDataLoader dataset_attr shuffle_hyp loader_attr st in
  (∀ a, a ≠ loader_attr → self run.2 a = self st a)
  ∧ (∀ e, run.1 = Raise e →
       (∀ a, self run.2 a = self st a) ∧ next_oid run.2 = next_oid st)
  ∧ (run.1 = Ret () →
     ∃ (d : obj CustomDataset) (o : obj DataLoader),
       (getattr dataset_attr st).1 = Ret (VDataset d)
       ∧ self run.2 loader_attr = Some (VDataLoader o)
       ∧ oid o = next_oid st
       ∧ ∃ batch_size shuffle num_workers pin_memory drop_last w w',
           DataLoader_new d batch_size shuffle num_workers pin_memory
                          drop_last w
           = (Ret (val o), w')).
Proof.
  intros run. split_and!.
  - intros a Ha.
    apply (frame_CreateDataLoader (λ b, b ≠ loader_attr)); [|done].
    by intros H.
  - intros e He. apply run_pair_raise in He.
    by apply (raise_frame_CreateDataLoader _ _ _ _ _ _ He).
  - intros Hret. apply run_pair in Hret.
    by apply (CreateDataLoader_run _ _ _ _ _ _ Hret).
Qed.

Lemma raise_frame_Train_epoch : raise_frame Train_epoch.
Proof.
  unfold Train_epoch.
  repeat (apply raise_frame_bind; [repeat reads_only_step|intros ?]).
  apply raise_frame_setattr.
Qed.

Lemma Train_epoch_records_losses (st : State) :
  returns_with Train_epoch st
    (λ _ st', ∃ training_loss validation_loss,
       self st' required_training_data
       = Some (VRequiredTrainingData training_loss validation_loss)).
Proof.
  unfold Train_epoch.
  repeat (apply returns_bind; intros ? ? _).
  intros u stz [= _ <-]. eexists _, _. cbn [self]. by rewrite decide_True.
Qed.

(** X12. [Train] records the two losses only when the epoch runs to its
    end: if the body completes, [required_training_data] holds a new pair
    of losses and [error] and [exception] are as they were before the call
    (an error stored by an earlier call is not cleared); if the body
    raises, [required_training_data] is as it was before the call. *)
Theorem Train_records_losses_only_on_completion (st : State) :
  (∀ st1, Train_body st = (Ret (), st1) →
     Train st = (Ret (), st1)
     ∧ self st1 error = self st error
     ∧ self st1 exception = self st exception
     ∧ ∃ training_loss validation_loss,
         self st1 required_training_data
         = Some (VRequiredTrainingData training_loss validation_loss))
  ∧ (∀ e st1, Train_body st = (Raise e, st1) →
       self (Train st).2 required_training_data
       = self st required_training_data).
Proof.
  assert (Hbody : frame (λ a, a = error ∨ a = exception) Train_body).
  { apply frame_bind.
    - apply frame_Train_reshuffle; intros [?|?]; done.
    - intros _. apply frame_Train_epoch. intros [?|?]; done. }
  split.
  - intros st1 Hrun. split; [by apply try_except_returned|].
    destruct (Hbody st) as [Hkeep _]. rewrite Hrun in Hkeep. simpl in Hkeep.
    split; [apply Hkeep; by left|]. split; [apply Hkeep; by right|].
    unfold Train_body in Hrun. unfold mbind, M_bind in Hrun.
    destruct (Train_reshuffle st) as [[u|e] st0]; [|done].
    by apply (Train_epoch_records_losses st0 () st1).
  - intros e st1 Hrun.
    assert (Hst1 : self st1 required_training_data
                   = self st required_training_data).
    { unfold Train_body in Hrun. unfold mbind, M_bind in Hrun.
      destruct (frame_Train_reshuffle (λ a, a = required_training_data)
                  ltac:(by intros ?) ltac:(by intros ?) st) as [Hre _].
      destruct (Train_reshuffle st) as [[u|e0] st0]; simpl in Hre.
      - destruct (raise_frame_Train_epoch st0 e st1 Hrun) as [Hep _].
        by rewrite Hep, Hre.
      - injection Hrun as <- <-. by apply Hre. }
    unfold Train, try_except. rewrite Hrun.
    destruct (derives_Exception (exn_class_of e)); [|done].
    rewrite <-Hst1.
    destruct (frame_store_error (λ a, a = required_training_data) e
                ltac:(by intros ?) ltac:(by intros ?) st1) as [Hst _].
    by apply Hst.
Qed.

Lemma reads_only_accuracy_counts (net : Net) (batches : list Batch) :
  reads_only (accuracy_counts net batches).
Proof.
  unfold accuracy_counts. apply reads_only_foldM. intros [total correct] batch.
  repeat reads_only_step.
Qed.

Lemma reads_only_Save_body (model_ training_data : value) :
  reads_only (Save_body model_ training_data).
Proof.
  unfold Save_body, dataset_accuracy, json_value.
  repeat first [apply reads_only_accuracy_counts | reads_only_step].
Qed.

(** X13. [Save] never changes the model object beyond the two error
    fields, and issues no identity: every other attribute is as it was
    before the call, and when the body completes so are [error] and
    [exception]. *)
Theorem Save_assigns_only_error_fields
    (model_ training_data : value) (st : State) :
  let st' := (Save model_ training_data st).2 in
  (∀ a, a ≠ error → a ≠ exception → self st' a = self st a)
  ∧ next_oid st' = next_oid st
  ∧ (∀ st1, Save_body model_ training_data st = (Ret (), st1) →
       ∀ a, self st' a = self st a).
Proof.
  intros st'.
  destruct (reads_only_Save_body model_ training_data st) as [Hself Hoid].
  unfold st', Save, try_except.
  destruct (Save_body model_ training_data st) as [[u|e] st1]; simpl in *.
  - split_and!; auto.
  - destruct (derives_Exception (exn_class_of e)); simpl.
    + split_and!; [|done|intros st2 [=]].
      intros a H1 H2. by rewrite !decide_False.
    + split_and!; [auto|done|intros st2 [=]].
Qed.

End Assignments.

(** ** The size of a model *)

Section ModelSize.
Context {F : Framework} {T : Template}.

Lemma numel_sum_cons (p : param_info) (ps : list param_info) :
  numel_sum (p :: ps) = foldr Z.mul 1 (param_size p) + numel_sum ps.
Proof. reflexivity. Qed.

Lemma numel_sum_nil : numel_sum [] = 0.
Proof. reflexivity. Qed.

Lemma total_params_foldl (ps : list param_info) (acc : Z) :
  foldl (λ total p, total + foldr Z.mul 1 (param_size p)) acc ps
  = acc + numel_sum ps.
Proof.
  revert acc. induction ps as [|p ps IH]; intros acc; cbn [foldl].
  - rewrite numel_sum_nil. lia.
  - rewrite IH, numel_sum_cons. lia.
Qed.

Lemma trainable_params_foldl (ps : list param_info) (acc : Z) :
  foldl (λ total p, if param_requires_grad p
                    then total + foldr Z.mul 1 (param_size p) else total)
        acc ps
  = acc + numel_sum (filter (λ p, param_requires_grad p = true) ps).
Proof.
  revert acc. induction ps as [|p ps IH]; intros acc; cbn [foldl].
  - rewrite filter_nil, numel_sum_nil. lia.
  - rewrite IH, filter_cons. destruct (param_requires_grad p) eqn:Hp.
    + rewrite decide_True by done. rewrite numel_sum_cons. lia.
    + by rewrite decide_False.
Qed.

Lemma numel_sum_split (ps : list param_info) :
  numel_sum ps
  = numel_sum (filter (λ p, param_requires_grad p = true) ps)
    + numel_sum (filter (λ p, param_requires_grad p = false) ps).
Proof.
  induction ps as [|p ps IH]; [done|].
  rewrite !filter_cons. destruct (param_requires_grad p) eqn:Hp.
  - rewrite decide_True, decide_False by done.
    rewrite !numel_sum_cons. lia.
  - rewrite decide_False, decide_True by done.
    rewrite !numel_sum_cons. lia.
Qed.

Lemma numel_nonneg (p : param_info) :
  Forall (λ d, 0 ≤ d) (param_size p) → 0 ≤ numel p.
Proof.
  unfold numel. induction 1 as [|d ds Hd _ IH]; simpl; lia.
Qed.

Lemma numel_sum_nonneg (ps : list param_info) :
  Forall (λ p, Forall (λ d, 0 ≤ d) (param_size p)) ps → 0 ≤ numel_sum ps.
Proof.
  induction 1 as [|p ps Hp _ IH]; [by rewrite numel_sum_nil|].
  rewrite numel_sum_cons. apply numel_nonneg in Hp. unfold numel in Hp. lia.
Qed.

(** X14. For a network whose parameter list is not empty, [GetModelSize]
    returns the number of elements of all parameters, of those that require
    a gradient and of those that do not, and the size in MB computed from
    the element size of the first parameter alone; the three counts add up,
    and with non-negative dimensions the trainable count lies between zero
    and the total. The model object is not touched. *)
Theorem GetModelSize_counts
    (net : Net) (st : State) (p0 : param_info) (ps : list param_info)
    (w1 w2 w3 : World) :
  net_parameters net (world st) = (Ret (p0 :: ps), w1) →
  net_parameters net w1 = (Ret (p0 :: ps), w2) →
  net_parameters net w2 = (Ret (p0 :: ps), w3) →
  Forall (λ p, Forall (λ d, 0 ≤ d) (param_size p)) (p0 :: ps) →
  let total := numel_sum (p0 :: ps) in
  let trainable :=
    numel_sum (filter (λ p, param_requires_grad p = true) (p0 :: ps)) in
  let frozen :=
    numel_sum (filter (λ p, param_requires_grad p = false) (p0 :: ps)) in
  GetModelSize (ArgValue (VNet net)) st
  = (Ret (total, trainable, frozen,
          (inject_Z (total * param_element_size p0) / inject_Z 1048576)%Q),
     MkState (self st) w3 (next_oid st))
  ∧ total = trainable + frozen
  ∧ 0 ≤ trainable ≤ total.
Proof.
  intros H1 H2 H3 Hdims total trainable frozen.
  assert (Hsplit : total = trainable + frozen) by apply numel_sum_split.
  assert (0 ≤ trainable).
  { apply numel_sum_nonneg.
    apply Forall_forall. intros p [_ Hp]%list_elem_of_filter.
    by apply (proj1 (Forall_forall _ _) Hdims). }
  assert (0 ≤ frozen).
  { apply numel_sum_nonneg.
    apply Forall_forall. intros p [_ Hp]%list_elem_of_filter.
    by apply (proj1 (Forall_forall _ _) Hdims). }
  split; [|split; [done|lia]].
  unfold GetModelSize, mbind, M_bind, call, mret, M_ret.
  cbn [world self next_oid]. rewrite H1. cbn [world self next_oid].
  rewrite H2. cbn [world self next_oid]. rewrite H3.
  rewrite total_params_foldl, trainable_params_foldl, !Z.add_0_l.
  fold total trainable. do 4 f_equal. lia.
Qed.

(** X15. For a network without parameters [GetModelSize] returns nothing:
    [next] on the empty parameter iterator raises [StopIteration], after the
    two counting passes have run. *)
Theorem GetModelSize_without_parameters
    (net : Net) (st : State) (ps1 ps2 : list param_info) (w1 w2 w3 : World) :
  net_parameters net (world st) = (Ret ps1, w1) →
  net_parameters net w1 = (Ret ps2, w2) →
  net_parameters net w2 = (Ret [], w3) →
  GetModelSize (ArgValue (VNet net)) st
  = (Raise (Exn StopIteration ""), MkState (self st) w3 (next_oid st)).
Proof.
  intros H1 H2 H3.
  unfold GetModelSize, mbind, M_bind, call, mret, M_ret.
  cbn [world self next_oid]. rewrite H1. cbn [world self next_oid].
  rewrite H2. cbn [world self next_oid]. by rewrite H3.
Qed.

End ModelSize.

(** ** Accuracy at the edges *)

Section AccuracyFurther.
Context {F : Framework} {T : Template}.

Lemma round_half_even_monotone (q1 q2 : Q) :
  (q1 <= q2)%Q → round_half_even q1 ≤ round_half_even q2.
Proof.
  intros Hle. unfold round_half_even.
  pose proof (Qfloor_le q1) as Hl1. pose proof (Qlt_floor q1) as Hh1.
  pose proof (Qfloor_le q2) as Hl2. pose proof (Qlt_floor q2) as Hh2.
  rewrite inject_Z_plus in Hh1, Hh2. change (inject_Z 1) with 1%Q in Hh1, Hh2.
  pose proof (Qfloor_resp_le _ _ Hle) as Hfl.
  destruct (Z.eq_dec (Qfloor q1) (Qfloor q2)) as [Heq|Hne].
  - rewrite <-Heq in *.
    destruct (Qcompare_spec (q1 - inject_Z (Qfloor q1)) (1 # 2)),
             (Qcompare_spec (q2 - inject_Z (Qfloor q1)) (1 # 2));
      try destruct (Z.even (Qfloor q1)); try lia; lra.
  - assert (Hlt : Qfloor q1 + 1 ≤ Qfloor q2) by lia.
    destruct (Qcompare (q1 - inject_Z (Qfloor q1)) (1 # 2)),
             (Qcompare (q2 - inject_Z (Qfloor q2)) (1 # 2));
      try destruct (Z.even (Qfloor q1)); try destruct (Z.even (Qfloor q2));
      lia.
Qed.

Lemma round_half_even_integer (q : Q) (n : Z) :
  (q == inject_Z n)%Q → round_half_even q = n.
Proof.
  intros Hq. unfold round_half_even.
  assert (Hfl : Qfloor q = n) by (by rewrite Hq, Qfloor_Z).
  rewrite Hfl.
  destruct (Qcompare_spec (q - inject_Z n) (1 # 2)) as [He|Hl|Hg].
  - lra.
  - done.
  - lra.
Qed.

Lemma py_round2_monotone (q1 q2 : Q) :
  (q1 <= q2)%Q → (py_round2 q1 <= py_round2 q2)%Q.
Proof.
  intros Hle. unfold py_round2.
  assert (H : round_half_even (q1 * inject_Z 100)
              ≤ round_half_even (q2 * inject_Z 100)).
  { apply round_half_even_monotone. change (inject_Z 100) with 100%Q. lra. }
  rewrite Zle_Qle in H. change (inject_Z 100) with 100%Q.
  unfold Qdiv. apply Qmult_le_compat_r; [exact H|]. discriminate.
Qed.

(** X16. The percentage computed from the two counters keeps their order
    (rounding to two places never puts a loader with fewer correct
    predictions ahead), is exactly 0 with no correct prediction and exactly
    100 with all of them; with no sample at all the division raises
    [ZeroDivisionError]. *)
Theorem accuracy_percent_order_and_extremes (total : Z) :
  (total = 0 →
     ∀ correct, accuracy_percent correct total
                = Raise (Exn ZeroDivisionError "division by zero"))
  ∧ (0 < total →
     (∀ c1 c2, c1 ≤ c2 →
        ∃ p1 p2, accuracy_percent c1 total = Ret p1
                 ∧ accuracy_percent c2 total = Ret p2
                 ∧ (p1 <= p2)%Q)
     ∧ (∃ p, accuracy_percent 0 total = Ret p ∧ (p == 0)%Q)
     ∧ (∃ p, accuracy_percent total total = Ret p ∧ (p == 100)%Q)).
Proof.
  split.
  - intros -> correct. reflexivity.
  - intros Hpos.
    assert (Ht : (0 < inject_Z total)%Q).
    { change 0%Q with (inject_Z 0). by rewrite <-Zlt_Qlt. }
    assert (Hz : Qeq_bool (inject_Z total) 0 = false).
    { apply not_true_is_false. intros H%Qeq_bool_iff. lra. }
    assert (Hrun : ∀ c, accuracy_percent c total
                        = Ret (py_round2 (inject_Z 100
                                          * (inject_Z c / inject_Z total)))).
    { intros c. unfold accuracy_percent, py_truediv. by rewrite Hz. }
    split_and!.
    + intros c1 c2 Hle. eexists _, _. split; [apply Hrun|].
      split; [apply Hrun|]. apply py_round2_monotone.
      rewrite Zle_Qle in Hle. change (inject_Z 100) with 100%Q.
      assert ((inject_Z c1 / inject_Z total
               <= inject_Z c2 / inject_Z total)%Q); [|lra].
      unfold Qdiv. apply Qmult_le_compat_r; [exact Hle|].
      apply Qinv_le_0_compat. lra.
    + eexists. split; [apply Hrun|]. unfold py_round2.
      rewrite (round_half_even_integer _ 0); [reflexivity|].
      change (inject_Z 0) with 0%Q. change (inject_Z 100) with 100%Q.
      field. lra.
    + eexists. split; [apply Hrun|]. unfold py_round2.
      rewrite (round_half_even_integer _ 10000); [reflexivity|].
      change (inject_Z 10000) with 10000%Q. change (inject_Z 100) with 100%Q.
      field. lra.
Qed.

(** X17. When the training loader yields no batch, [Save] stops at the
    first percentage: it returns with "division by zero" in [error], and
    nothing outside the program is touched after the loader was iterated
    (no validation pass, no directory, no file). *)
Theorem Save_with_empty_training_loader
    (net : Net) (training_data : value) (st : State) (l : obj DataLoader)
    (w0 w1 w2 : World) :
  cuda_empty_cache (world st) = (Ret (), w0) →
  net_eval net w0 = (Ret (), w1) →
  self st train_dataloader = Some (VDataLoader l) →
  DataLoader_iter (val l) w1 = (Ret [], w2) →
  let run := Save (VNet net) training_data st in
  run.1 = Ret ()
  ∧ self run.2 error = Some (VPy (PStr "division by zero"))
  ∧ world run.2 = w2
  ∧ (∀ a, a ≠ error → a ≠ exception → self run.2 a = self st a).
Proof.
  intros Hcache Heval Hloader Hiter run.
  assert (Hbody : Save_body (VNet net) training_data st
                  = (Raise (Exn ZeroDivisionError "division by zero"),
                     MkState (self st) w2 (next_oid st))).
  { unfold Save_body, dataset_accuracy, mbind, M_bind, call, getattr.
    cbn [world self next_oid expect net_of mret M_ret].
    rewrite Hcache. cbn [world self next_oid]. rewrite Heval.
    cbn [world self next_oid]. rewrite Hloader.
    cbn [world self next_oid expect loader_of mret M_ret]. rewrite Hiter.
    reflexivity. }
  unfold run, Save. rewrite (try_except_caught _ _ _ _ _ Hbody eq_refl).
  destruct (store_error_run (Exn ZeroDivisionError "division by zero")
              (MkState (self st) w2 (next_oid st)))
    as (st' & -> & Herr & _ & Hframe & Hworld & _).
  split_and!; done.
Qed.

End AccuracyFurther.

(** ** The further properties on the concrete setting *)

Section ConcreteFurther.
Local Existing Instance Demo.framework.
Local Existing Instance Demo.template.


Lemma item_ids_within_vocabulary_witness :
  ∃ tensor,
    __getitem__ Demo.short_ds 0 = Ret (tensor, 0)
    ∧ Forall (λ id, 0 ≤ id
                    < Z.of_nat (size (build_vocab Demo.short_records)) + 1)
             tensor.
Proof.
  eexists. split; [reflexivity|].
  apply (item_ids_within_vocabulary Demo.short_records
           (GetMaxLength Demo.short_records) 0 _ 0).
  - intros s. reflexivity.
  - reflexivity.
Defined.

Lemma encode_injective_witness :
  encode Demo.short_ds "ok" ≠ encode Demo.short_ds "ko".
Proof.
  intros Heq.
  assert (Hin : ∀ t, t = "ok" ∨ t = "ko" →
            ∀ c, c ∈ chars t → c ∈ distinct_chars Demo.short_records).
  { intros t Ht c Hc. apply elem_of_distinct_chars.
    exists ("ok", "general", 0). split; [apply list_elem_of_here|]. left.
    destruct Ht as [-> | ->]; [exact Hc|].
    vm_compute in Hc. apply elem_of_cons in Hc as [-> | Hc].
    - apply list_elem_of_further, list_elem_of_here.
    - apply elem_of_cons in Hc as [-> | Hc]; [apply list_elem_of_here|].
      inversion Hc. }
  pose proof (encode_injective Demo.short_records
                (GetMaxLength Demo.short_records) "ok" "ko"
                (λ s, reflexivity _)
                (Hin "ok" (or_introl eq_refl)) (Hin "ko" (or_intror eq_refl))
                Heq) as H.
  discriminate H.
Defined.


Lemma GetMaxLength_order_independent_witness :
  GetMaxLength (reverse Demo.records) = GetMaxLength Demo.records.
Proof.
  apply GetMaxLength_order_independent. apply reverse_Permutation.
Defined.

Lemma load_data_reads_every_record_file_witness :
  (load_data (ArgValue (VPy (PStr "data"))) Demo.constructed).1
  = Ret Demo.records
  ∧ length Demo.records = 10%nat.
Proof.
  assert (Hloads : ∃ rs,
            loads (PStr "data") (Demo.files.*1) Demo.files rs Demo.files
            ∧ rs = Demo.records).
  { eexists. split.
    - repeat first
        [ apply loads_nil
        | eapply loads_file;
          [reflexivity|reflexivity|reflexivity|reflexivity|reflexivity
          |reflexivity|]
        | eapply loads_skip; [reflexivity|] ].
    - reflexivity. }
  destruct Hloads as (rs & Hloads & ->).
  destruct (load_data_reads_every_record_file (PStr "data") Demo.constructed
              (Demo.files.*1) Demo.files Demo.files Demo.records
              eq_refl Hloads) as [Hrun Hlen].
  split; [rewrite Hrun; reflexivity|rewrite Hlen; reflexivity].
Defined.

Lemma load_data_stops_at_bad_file_witness :
  (load_data (ArgValue (VPy (PStr "data"))) Demo.broken).1
  = Raise (Exn IndexError "list index out of range").
Proof.
  assert (Hloads : ∃ rs,
            loads (PStr "data") ["00.txt"] Demo.broken_files rs
                  Demo.broken_files).
  { eexists. eapply loads_file;
      [reflexivity|reflexivity|reflexivity|reflexivity|reflexivity
      |reflexivity|apply loads_nil]. }
  destruct Hloads as (rs & Hloads).
  assert (Hbad :
    open_readlines (PStr "data") "01.txt" Demo.broken_files
    = (Raise (Exn IndexError "list index out of range"), Demo.broken_files)
    ∨ ∃ lines,
        open_readlines (PStr "data") "01.txt" Demo.broken_files
        = (Ret lines, Demo.broken_files)
        ∧ (((length lines < 3)%nat
            ∧ Exn IndexError "list index out of range"
              = Exn IndexError "list index out of range")
           ∨ ∃ l2, lines !! 2%nat = Some l2
                   ∧ int_of_str (str_strip l2)
                     = Raise (Exn IndexError "list index out of range"))).
  { right. eexists. split; [reflexivity|]. left. split; [|reflexivity].
    simpl. lia. }
  rewrite (load_data_stops_at_bad_file (PStr "data") Demo.broken
             ["00.txt"] ["02.txt"] "01.txt"
             Demo.broken_files Demo.broken_files Demo.broken_files rs
             (Exn IndexError "list index out of range")
             eq_refl Hloads eq_refl Hbad).
  reflexivity.
Defined.

Lemma SplitDataset_keeps_every_record_witness :
  ∃ train_ds val_ds st',
    SplitDataset Demo.records (PFloat (8 # 10)) 12 Demo.constructed
    = (Ret (train_ds, val_ds, 8, 2), st')
    ∧ data (val train_ds) ++ data (val val_ds) ≡ₚ Demo.records
    ∧ oid train_ds ≠ oid val_ds.
Proof.
  destruct (SplitDataset_keeps_every_record Demo.records (PFloat (8 # 10)) 12
              Demo.constructed 8)
    as (train_ds & val_ds & st' & Hrun & Hperm & _ & _ & _ & _ & Hne & _).
  - exact demo_sample_contract.
  - reflexivity.
  - vm_compute. split; discriminate.
  - exists train_ds, val_ds, st'. split; [exact Hrun|].
    split; [exact Hperm|exact Hne].
Defined.

Lemma SplitDataset_rejects_bad_ratio_witness :
  SplitDataset Demo.records (PFloat (12 # 10)) 12 Demo.constructed
  = (Raise (Exn ValueError "Sample larger than population or is negative"),
     Demo.constructed).
Proof.
  apply (SplitDataset_rejects_bad_ratio Demo.records (PFloat (12 # 10)) 12
           Demo.constructed 12).
  - reflexivity.
  - right. vm_compute. reflexivity.
Defined.

Lemma CreateDataLoader_all_or_nothing_witness :
  self (CreateTrainDataLoader Demo.ready).2 train_dataset
  = self Demo.ready train_dataset
  ∧ ∃ o, self (CreateTrainDataLoader Demo.ready).2 train_dataloader
         = Some (VDataLoader o)
         ∧ oid o = 4%nat.
Proof.
  pose proof (CreateDataLoader_all_or_nothing train_dataset "shuffle_train"
                train_dataloader Demo.ready) as H.
  cbv zeta in H. destruct H as (Hkeep & _ & Hret). split.
  - apply Hkeep. discriminate.
  - destruct Hret as (d & o & _ & Ho & Hoid & _); [reflexivity|].
    exists o. split; [exact Ho|exact Hoid].
Defined.

Lemma Train_records_losses_only_on_completion_witness :
  ∃ training_loss validation_loss,
    self (Train Demo.ready).2 required_training_data
    = Some (VRequiredTrainingData training_loss validation_loss).
Proof.
  assert (Hbody : ∃ st1, Train_body Demo.ready = (Ret (), st1)).
  { eexists. apply run_pair. reflexivity. }
  destruct Hbody as [st1 Hbody].
  destruct (proj1 (Train_records_losses_only_on_completion Demo.ready)
              st1 Hbody)
    as (Hrun & _ & _ & training_loss & validation_loss & Hrtd).
  exists training_loss, validation_loss. rewrite Hrun. exact Hrtd.
Defined.

Lemma accuracy_percent_order_and_extremes_witness :
  ∃ p1 p2, accuracy_percent 1 3 = Ret p1
           ∧ accuracy_percent 2 3 = Ret p2
           ∧ (p1 <= p2)%Q.
Proof.
  destruct (accuracy_percent_order_and_extremes 3) as [_ H].
  destruct H as [Hmono _]; [lia|]. apply Hmono. lia.
Defined.

Lemma Save_with_empty_training_loader_witness :
  (Save (VNet Demo.net) (VPy PNone) Demo.unfed).1 = Ret ()
  ∧ self (Save (VNet Demo.net) (VPy PNone) Demo.unfed).2 error
    = Some (VPy (PStr "division by zero")).
Proof.
  pose proof (Save_with_empty_training_loader Demo.net (VPy PNone) Demo.unfed
                (Obj 2 []) Demo.files Demo.files Demo.files
                eq_refl eq_refl eq_refl eq_refl) as H.
  cbv zeta in H. destruct H as (Hret & Herr & _).
  split; [exact Hret|exact Herr].
Defined.

End ConcreteFurther.

Section ConcreteParameters.
Local Existing Instance Demo.parameter_framework.
Local Existing Instance Demo.template.

Lemma GetModelSize_counts_witness :
  (GetModelSize (ArgValue (VNet Demo.layers)) Demo.blank).1
  = Ret (178, 176, 2, (inject_Z 712 / inject_Z 1048576)%Q).
Proof.
  pose proof (GetModelSize_counts Demo.layers Demo.blank
                (ParamInfo [20; 8] true 4)
                [ParamInfo [8; 2] true 4; ParamInfo [2] false 4]
                [] [] [] eq_refl eq_refl eq_refl) as H.
  cbv zeta in H. destruct H as [Hrun _].
  - repeat constructor; simpl; lia.
  - rewrite Hrun. reflexivity.
Defined.

Lemma GetModelSize_without_parameters_witness :
  (GetModelSize (ArgValue (VNet (F:=Demo.parameter_framework) [])) Demo.blank).1
  = Raise (Exn StopIteration "").
Proof.
  rewrite (GetModelSize_without_parameters (F:=Demo.parameter_framework)
             [] Demo.blank [] [] [] [] [] eq_refl eq_refl eq_refl).
  reflexivity.
Defined.

End ConcreteParameters.
